(** * Supabase vector store: a shallow embedding of
      [personal_assistant/vector_stores/supabase_store.py]

    The Python module talks to two remote services (the OpenAI embedding
    endpoint and a Supabase/PostgREST database) and keeps a little process
    state (the [lru_cache] in front of [_embed_single]).  The embedding below
    keeps the shape of the source: every function of the module is a
    computation in a state-and-exception monad [Py], [try/except] is an
    explicit combinator, and the remote services are an interface the
    functions are parameterised over.

    Covered: [_embed_single], [_embed_batch], [upsert], [upsert_batch],
    [search], [search_fallback], [delete], [get_document] and
    [count_documents].  A call to [print] can raise [UnicodeEncodeError]
    when the standard output cannot encode its text; the calls that print
    a string of the caller are part of the functions below (see [print]). *)

From Stdlib Require Import ZArith List String Ascii Bool QArith Lia DecimalString.
Import ListNotations.
Local Open Scope string_scope.
Local Open Scope Z_scope.
Set Warnings "-register-all".

(** ** Python values *)

(** The module is dynamically typed: rows are dictionaries whose fields hold
    strings, numbers, lists or nested dictionaries, and the code inspects
    them with [isinstance], truthiness tests and [dict.get].  Dictionaries
    keep insertion order, so they are association lists. *)
Inductive pyval : Type :=
| PNone
| PBool (b : bool)
| PInt (z : Z)
| PFloat (q : Q)
| PStr (s : string)
| PList (items : list pyval)
| PDict (fields : list (string * pyval)).

Definition dict : Type := list (string * pyval).

(** Python's truth value of an object. *)
Definition truthy (v : pyval) : bool :=
  match v with
  | PNone => false
  | PBool b => b
  | PInt z => negb (z =? 0)
  | PFloat q => negb (Qnum q =? 0)
  | PStr s => negb (s =? EmptyString)%string
  | PList l => match l with [] => false | _ => true end
  | PDict d => match d with [] => false | _ => true end
  end.

Definition is_dict (v : pyval) : bool :=
  match v with PDict _ => true | _ => false end.

(** [key in d] and [d.get(key)] on a dictionary. *)
Fixpoint dict_find (key : string) (d : dict) : option pyval :=
  match d with
  | [] => None
  | (k, v) :: d' => if (k =? key)%string then Some v else dict_find key d'
  end.

Definition dict_has (key : string) (d : dict) : bool :=
  match dict_find key d with Some _ => true | None => false end.

Definition dict_get (key : string) (default : pyval) (d : dict) : pyval :=
  match dict_find key d with Some v => v | None => default end.

(** [d[key] = v]: overwrite in place, or append a new key. *)
Fixpoint dict_set (key : string) (v : pyval) (d : dict) : dict :=
  match d with
  | [] => [(key, v)]
  | (k, x) :: d' =>
      if (k =? key)%string then (k, v) :: d' else (k, x) :: dict_set key v d'
  end.

(** ** Python exceptions and outcomes *)

(** Every constructor is a subclass of [Exception]; [ServiceError] stands for
    whatever the OpenAI or Supabase client raises (transport errors, API
    errors, rate limits). *)
Inductive exn : Type :=
| ValueError (msg : string)
| RuntimeError (msg : string)
| TypeError (msg : string)
| KeyError (key : string)
| IndexError
| AttributeError
| JSONDecodeError
| UnicodeEncodeError
| ServiceError (msg : string).

Inductive outcome (A : Type) : Type :=
| Return (a : A)
| Raise (e : exn).
Arguments Return {A} a.
Arguments Raise {A} e.

Definition obind {A B} (m : outcome A) (f : A -> outcome B) : outcome B :=
  match m with
  | Return a => f a
  | Raise e => Raise e
  end.

(** ** Strings

    A string is a sequence of characters with code points below 256. *)
Module Str.

Definition code (c : ascii) : N := N_of_ascii c.

(** [str.isspace] on one character (the code points below 256 that
    Python counts as whitespace). *)
Definition is_space (c : ascii) : bool :=
  let n := code c in
  ((9 <=? n) && (n <=? 13) || (28 <=? n) && (n <=? 32)
   || (n =? 133) || (n =? 160))%N.

(** [str.lower] on one character. *)
Definition lower_char (c : ascii) : ascii :=
  let n := code c in
  if ((65 <=? n) && (n <=? 90)
      || (192 <=? n) && (n <=? 222) && negb (n =? 215))%N
  then ascii_of_N (n + 32) else c.

Fixpoint lower (s : string) : string :=
  match s with
  | EmptyString => EmptyString
  | String c s' => String (lower_char c) (lower s')
  end.

Fixpoint lstrip (s : string) : string :=
  match s with
  | EmptyString => EmptyString
  | String c s' => if is_space c then lstrip s' else s
  end.

(** Removes trailing whitespace: a character is kept when something
    non-blank follows it or it is itself not whitespace. *)
Fixpoint rstrip (s : string) : string :=
  match s with
  | EmptyString => EmptyString
  | String c s' =>
      match rstrip s' with
      | EmptyString => if is_space c then EmptyString else String c EmptyString
      | r => String c r
      end
  end.

Definition strip (s : string) : string := rstrip (lstrip s).

Definition is_empty (s : string) : bool :=
  match s with EmptyString => true | _ => false end.

(** [not text.strip()] *)
Definition blank (s : string) : bool := is_empty (strip s).

(** [s.split()]: the maximal runs of non-whitespace characters. *)
Fixpoint words_from (cur : string) (s : string) : list string :=
  match s with
  | EmptyString => if is_empty cur then [] else [cur]
  | String c s' =>
      if is_space c
      then (if is_empty cur then words_from EmptyString s'
            else cur :: words_from EmptyString s')
      else words_from (cur ++ String c EmptyString) s'
  end.

Definition split (s : string) : list string := words_from EmptyString s.

(** [s.split(sep)] for a non-empty separator: left to right, occurrences
    do not overlap.  [skip] counts the characters of a separator that was
    just matched and is still to be passed over. *)
Fixpoint split_from (sep : string) (skip : nat) (cur : string) (s : string)
  : list string :=
  match s with
  | EmptyString => [cur]
  | String c s' =>
      match skip with
      | S k => split_from sep k cur s'
      | O =>
          if prefix sep s
          then cur :: split_from sep (String.length sep - 1) EmptyString s'
          else split_from sep 0 (cur ++ String c EmptyString) s'
      end
  end.

Definition split_on (sep s : string) : list string :=
  split_from sep 0 EmptyString s.

(** [sub in s] *)
Fixpoint contains (sub s : string) : bool :=
  prefix sub s ||
  match s with
  | EmptyString => false
  | String _ s' => contains sub s'
  end.

(** [s.replace(c, empty)] for a one-character [c]: every [c] is removed. *)
Fixpoint remove_char (c : ascii) (s : string) : string :=
  match s with
  | EmptyString => EmptyString
  | String d s' =>
      if Ascii.eqb c d then remove_char c s' else String d (remove_char c s')
  end.

(** [sep.join(parts)] *)
Fixpoint join (sep : string) (parts : list string) : string :=
  match parts with
  | [] => EmptyString
  | [p] => p
  | p :: rest => p ++ sep ++ join sep rest
  end.

End Str.

(** ** The monad of the module

    A computation runs in a world and leaves a world behind, whether it
    returns or raises: a retry that slept, a cache entry or a row written
    before an exception stay. *)
Section World.

(** State of the remote services (what the embedding endpoint and the
    database hold or will answer). *)
Variable Remote : Type.

Record World : Type := mkWorld {
  services : Remote;
  (** entries of the [lru_cache] of [_embed_single], most recent first *)
  lru : list (string * pyval);
  (** arguments of the calls to [time.sleep], oldest first *)
  slept : list Z }.

Definition Py (A : Type) : Type := World -> outcome A * World.

Definition ret {A} (a : A) : Py A := fun w => (Return a, w).

Definition raise {A} (e : exn) : Py A := fun w => (Raise e, w).

Definition bind {A B} (m : Py A) (f : A -> Py B) : Py B :=
  fun w =>
    match m w with
    | (Return a, w') => f a w'
    | (Raise e, w') => (Raise e, w')
    end.

(** [try: body  except Exception as e: handler] *)
Definition try_except {A} (body : Py A) (handler : exn -> Py A) : Py A :=
  fun w =>
    match body w with
    | (Return a, w') => (Return a, w')
    | (Raise e, w') => handler e w'
    end.

(** A pure step that may raise. *)
Definition lift {A} (o : outcome A) : Py A := fun w => (o, w).

(** A call to a remote service. *)
Definition call {A} (f : Remote -> outcome A * Remote) : Py A :=
  fun w =>
    let (o, s') := f (services w) in
    (o, mkWorld s' (lru w) (slept w)).

(** [time.sleep(seconds)] *)
Definition sleep (seconds : Z) : Py unit :=
  fun w => (Return tt, mkWorld (services w) (lru w) (slept w ++ [seconds])).

End World.

Arguments mkWorld {Remote} _ _ _.
Arguments services {Remote} _.
Arguments lru {Remote} _.
Arguments slept {Remote} _.
Arguments ret {Remote A} _ _.
Arguments raise {Remote A} _ _.
Arguments bind {Remote A B} _ _ _.
Arguments try_except {Remote A} _ _ _.
Arguments lift {Remote A} _ _.
Arguments call {Remote A} _ _.
Arguments sleep {Remote} _ _.

Declare Scope py_scope.
Delimit Scope py_scope with py.
Notation "x <- m ;; k" := (bind m (fun x => k))
  (at level 61, m at next level, right associativity) : py_scope.
Notation "m ;; k" := (bind m (fun _ => k))
  (at level 61, right associativity) : py_scope.
Local Open Scope py_scope.

(** ** The remote services *)

(** What a PostgREST query built with the Supabase client says:
    [cli.table(t).select(cols, count=c)], [.upsert(rows)], [.delete()],
    then [.eq(col, v)], [.ilike(col, pattern)] and [.limit(n)]. *)
Inductive verb : Type :=
| Select (columns : string) (count : option string)
| Upsert (rows : pyval)
| Delete.

Inductive condition : Type :=
| Eq (column value : string)
| ILike (column pattern : string).

Record query : Type := mkQuery {
  q_table : string;
  q_verb : verb;
  q_filters : list condition;
  q_limit : option Z }.

Definition table (name : string) (v : verb) : query := mkQuery name v [] None.
Definition eq_ (column value : string) (q : query) : query :=
  mkQuery (q_table q) (q_verb q) (q_filters q ++ [Eq column value]) (q_limit q).
Definition ilike (column pattern : string) (q : query) : query :=
  mkQuery (q_table q) (q_verb q) (q_filters q ++ [ILike column pattern]) (q_limit q).
Definition limit (n : Z) (q : query) : query :=
  mkQuery (q_table q) (q_verb q) (q_filters q) (Some n).

(** What [.execute()] hands back.  [data] is [None] when the attribute is
    [None]; [error] is [None] when the response has no [error] attribute or
    a false one ([hasattr(response, 'error') and response.error]); [count] is
    [None] when the response has no [count] attribute. *)
Record Response : Type := mkResponse {
  data : option (list pyval);
  error : option string;
  count : option pyval }.

(** The two clients of the module, [client] (OpenAI) and [self.cli]
    (Supabase), whose calls may raise, and the standard output of the
    process. *)
Record Services (Remote : Type) : Type := mkServices {
  (** [client.embeddings.create(model=EMBED_MODEL, input=..., encoding_format="float")]:
      the [embedding] of each item of [response.data], in order *)
  embeddings_create : string -> pyval -> Remote -> outcome (list pyval) * Remote;
  (** [query.execute()] *)
  execute : query -> Remote -> outcome Response * Remote;
  (** [self.cli.rpc(name, params).execute()] *)
  rpc : string -> pyval -> Remote -> outcome Response * Remote;
  (** the characters beyond ASCII that the encoding of [sys.stdout] has *)
  stdout_encodes : ascii -> bool }.

Arguments embeddings_create {Remote} _ _ _ _.
Arguments execute {Remote} _ _ _.
Arguments rpc {Remote} _ _ _ _.
Arguments stdout_encodes {Remote} _ _.

(** ** The standard output

    [print(text)] encodes the text for the standard output and raises
    [UnicodeEncodeError] when the encoding lacks one of its characters.
    Every encoding has the ASCII characters, so a text of literals and
    numbers always prints.

    The functions below contain the calls to [print] whose text holds a
    string of the caller (a query, an id, a content), at the place they
    have in the source.  The other calls print literals, counts, and the
    messages of exceptions and of the services; these messages are taken to
    be ASCII, so that the calls return, and they are left out. *)
Definition printable {Remote} (svc : Services Remote) (text : string) : bool :=
  forallb (fun c => (Str.code c <? 128)%N || stdout_encodes svc c)
          (list_ascii_of_string text).

Definition print {Remote} (svc : Services Remote) (text : string) : Py Remote unit :=
  if printable svc text then ret tt else raise UnicodeEncodeError.

(** ** Operations of Python the module relies on *)

(** [l[i]] on a list *)
Definition index {A} (l : list A) (i : nat) : outcome A :=
  match nth_error l i with
  | Some x => Return x
  | None => Raise IndexError
  end.

(** [v[i]] on an object *)
Definition py_index (v : pyval) (i : nat) : outcome pyval :=
  match v with
  | PList l => index l i
  | PStr s => match String.get i s with
              | Some c => Return (PStr (String c EmptyString))
              | None => Raise IndexError
              end
  | _ => Raise (TypeError "object is not subscriptable")
  end.

(** [len(v)] *)
Definition py_len (v : pyval) : outcome Z :=
  match v with
  | PList l => Return (Z.of_nat (List.length l))
  | PDict d => Return (Z.of_nat (List.length d))
  | PStr s => Return (Z.of_nat (String.length s))
  | _ => Raise (TypeError "object has no len()")
  end.

(** [v.strip()] and [v.lower()]: only strings have them. *)
Definition py_strip (v : pyval) : outcome string :=
  match v with
  | PStr s => Return (Str.strip s)
  | _ => Raise AttributeError
  end.

Definition py_lower (v : pyval) : outcome string :=
  match v with
  | PStr s => Return (Str.lower s)
  | _ => Raise AttributeError
  end.

(** [v.get(key, default)]: only dictionaries have it. *)
Definition py_get (key : string) (default : pyval) (v : pyval) : outcome pyval :=
  match v with
  | PDict d => Return (dict_get key default d)
  | _ => Raise AttributeError
  end.

(** [d[key]] on a dictionary *)
Definition dict_item (key : string) (d : dict) : outcome pyval :=
  match dict_find key d with
  | Some v => Return v
  | None => Raise (KeyError key)
  end.

(** [l[:k]] *)
Definition slice_to {A} (k : Z) (l : list A) : list A :=
  if k <? 0 then firstn (Z.to_nat (Z.of_nat (List.length l) + k)) l
  else firstn (Z.to_nat k) l.

(** [[documents[i:i + size] for i in range(0, len(documents), size)]]; the
    first argument bounds the number of slices by the length of the list. *)
Fixpoint slices_of {A} (bound : nat) (size : nat) (l : list A) : list (list A) :=
  match bound with
  | O => []
  | S bound' =>
      match l with
      | [] => []
      | _ => firstn size l :: slices_of bound' size (skipn size l)
      end
  end.

Definition slices {A} (size : nat) (l : list A) : list (list A) :=
  slices_of (List.length l) size l.

(** The truth value of [response.data]. *)
Definition rows_of (r : Response) : list pyval :=
  match data r with Some rows => rows | None => [] end.

(** [str(n)] for a length. *)
Definition str_len (n : nat) : string := NilZero.string_of_uint (Nat.to_uint n).

(** ** Constants and configuration *)

Definition EMBED_MODEL : string := "text-embedding-3-small".
Definition _TOPK_DEFAULT : Z := 8.
Definition _BATCH_SIZE : nat := 20.
Definition _MAX_RETRIES : Z := 3.
Definition _RETRY_DELAY : Z := 2.

(** [@lru_cache(maxsize=100)] *)
Definition lru_maxsize : nat := 100.

Fixpoint cache_find (key : string) (c : list (string * pyval)) : option pyval :=
  match c with
  | [] => None
  | (k, v) :: c' => if (k =? key)%string then Some v else cache_find key c'
  end.

Fixpoint cache_remove (key : string) (c : list (string * pyval))
  : list (string * pyval) :=
  match c with
  | [] => []
  | (k, v) :: c' =>
      if (k =? key)%string then cache_remove key c' else (k, v) :: cache_remove key c'
  end.

(** The decorator: a hit returns the cached value and makes the entry the
    most recent; a miss calls the function and, when it returns, stores
    the value, dropping the least recent entry beyond [lru_maxsize].  A call
    that raises stores nothing. *)
Definition lru_cache {Remote} (f : string -> Py Remote pyval) (text : string) : Py Remote pyval :=
  fun w =>
    match cache_find text (lru w) with
    | Some v =>
        (Return v,
         mkWorld (services w) ((text, v) :: cache_remove text (lru w)) (slept w))
    | None =>
        match f text w with
        | (Return v, w') =>
            (Return v,
             mkWorld (services w') (firstn lru_maxsize ((text, v) :: lru w'))
                     (slept w'))
        | (Raise e, w') => (Raise e, w')
        end
    end.

(** The signature of [search]: each parameter after [self] with its default,
    if it has one. *)
Definition search_signature : list (string * option pyval) :=
  [("query", None); ("top_k", Some (PInt _TOPK_DEFAULT))].

(** Python's binding of the arguments of a call to the parameters of a
    signature without [*args] and [**kwargs].  Positional arguments fill
    the parameters from the left.  Then the keyword arguments are taken
    in their order: a name bound by position raises "multiple values", a
    name of no parameter raises "unexpected keyword".  Only then are
    surplus positional arguments reported, and last the parameters left
    without a value and without a default.  Every error is a
    [TypeError]. *)
Fixpoint bind_positional (params : list (string * option pyval))
  (args : list pyval) : list (string * option pyval) * dict * list pyval :=
  match args, params with
  | [], _ => (params, [], [])
  | _ :: _, [] => ([], [], args)
  | a :: args', (name, _) :: params' =>
      let '(remaining, bound, surplus) := bind_positional params' args' in
      (remaining, (name, a) :: bound, surplus)
  end.

Fixpoint bind_keywords (params : list (string * option pyval))
  (kwargs : dict) : outcome dict :=
  match params with
  | [] => Return []
  | (name, default) :: params' =>
      obind (bind_keywords params' kwargs)
            (fun rest =>
               match dict_find name kwargs, default with
               | Some v, _ => Return ((name, v) :: rest)
               | None, Some v => Return ((name, v) :: rest)
               | None, None => Raise (TypeError "missing a required argument")
               end)
  end.

(** The first keyword argument that names no remaining parameter: a
    parameter already filled by position, or no parameter at all. *)
Fixpoint misplaced_keyword (remaining : list (string * option pyval))
  (bound : dict) (kwargs : dict) : option exn :=
  match kwargs with
  | [] => None
  | (name, _) :: kwargs' =>
      if existsb (fun p => (fst p =? name)%string) remaining
      then misplaced_keyword remaining bound kwargs'
      else if dict_has name bound
      then Some (TypeError "got multiple values for argument")
      else Some (TypeError "got an unexpected keyword argument")
  end.

Definition bind_call (params : list (string * option pyval))
  (args : list pyval) (kwargs : dict) : outcome dict :=
  let '(remaining, bound, surplus) := bind_positional params args in
  match misplaced_keyword remaining bound kwargs with
  | Some e => Raise e
  | None =>
      match surplus with
      | _ :: _ => Raise (TypeError "too many positional arguments")
      | [] =>
          obind (bind_keywords remaining kwargs)
                (fun rest => Return (bound ++ rest)%list)
      end
  end.

Definition unexpected_keyword : exn :=
  TypeError "got an unexpected keyword argument".

(** ** The module *)
Section Store.

Variable Remote : Type.
Variable svc : Services Remote.

(** [json.dumps], which raises [TypeError] on an object it cannot
    serialise, and [json.loads], which is [None] where Python raises
    [json.JSONDecodeError]. *)
Variable json_dumps : pyval -> outcome string.
Variable json_loads : string -> option pyval.

Local Abbreviation M := (Py Remote).

(** *** OpenAI embedding helper *)

(** The retry loop of [_embed_single].  [left] is
    [_MAX_RETRIES - retries]: the loop condition [retries < _MAX_RETRIES]
    holds as long as [left] is not zero, and a function that leaves the
    loop returns [None]. *)
Fixpoint embed_single_attempts (left : nat) (text : string) : M pyval :=
  match left with
  | O => ret PNone
  | S left' =>
      try_except
        (response_data <- call (embeddings_create svc EMBED_MODEL (PStr text)) ;;
         lift (index response_data 0))
        (fun e =>
           let retries := _MAX_RETRIES - Z.of_nat left' in
           if retries >=? _MAX_RETRIES then raise e
           else sleep _RETRY_DELAY ;; embed_single_attempts left' text)
  end.

Definition embed_single_uncached (text : string) : M pyval :=
  if Str.blank text then raise (ValueError "Cannot embed empty text")
  else embed_single_attempts (Z.to_nat _MAX_RETRIES) text.

Definition _embed_single : string -> M pyval := lru_cache embed_single_uncached.

(** [[text for text in texts if text.strip()]] *)
Fixpoint valid_texts_of (texts : list pyval) : outcome (list pyval) :=
  match texts with
  | [] => Return []
  | text :: rest =>
      obind (py_strip text) (fun stripped =>
      obind (valid_texts_of rest) (fun valid =>
      Return (if Str.is_empty stripped then valid else text :: valid)))
  end.

(** The retry loop of [_embed_batch], as [embed_single_attempts]. *)
Fixpoint embed_batch_attempts (left : nat) (valid_texts : list pyval) : M pyval :=
  match left with
  | O => ret PNone
  | S left' =>
      try_except
        (response_data <- call (embeddings_create svc EMBED_MODEL (PList valid_texts)) ;;
         ret (PList response_data))
        (fun e =>
           let retries := _MAX_RETRIES - Z.of_nat left' in
           if retries >=? _MAX_RETRIES then raise e
           else sleep (_RETRY_DELAY * retries) ;; embed_batch_attempts left' valid_texts)
  end.

Definition _embed_batch (texts : list pyval) : M pyval :=
  match texts with
  | [] => ret (PList [])
  | _ =>
      valid_texts <- lift (valid_texts_of texts) ;;
      match valid_texts with
      | [] => ret (PList [])
      | _ => embed_batch_attempts (Z.to_nat _MAX_RETRIES) valid_texts
      end
  end.

(** *** Vector store class *)

Definition documents : verb -> query := table "documents".

(** [json.dumps(metadata) if isinstance(metadata, dict) else metadata] *)
Definition dump_if_dict (metadata : pyval) : outcome pyval :=
  if is_dict metadata
  then obind (json_dumps metadata) (fun s => Return (PStr s))
  else Return metadata.

Definition upsert (doc_id content : string) (metadata : pyval) : M pyval :=
  try_except
    (if Str.blank content
     then raise (ValueError "Document content cannot be empty")
     else if Str.is_empty doc_id
     then raise (ValueError "Document ID is required")
     else
       embedding <- _embed_single content ;;
       stored_metadata <- lift (dump_if_dict metadata) ;;
       let row := PDict [("doc_id", PStr doc_id);
                         ("content", PStr content);
                         ("embedding", embedding);
                         ("metadata", stored_metadata)] in
       response <- call (execute svc (documents (Upsert row))) ;;
       match error response with
       | Some err => raise (RuntimeError ("Upsert error: " ++ err))
       | None =>
           match rows_of response with
           | [] => raise (RuntimeError "Upsert returned no data")
           | first :: _ => ret first
           end
       end)
    (fun e => raise e).

(** ["content" in doc and doc["content"]] *)
Definition has_content (doc : dict) : bool :=
  dict_has "content" doc && truthy (dict_get "content" PNone doc).

(** [[doc["content"] for doc in batch if "content" in doc and doc["content"]]] *)
Definition contents_of (batch : list dict) : list pyval :=
  map (dict_get "content" PNone) (List.filter has_content batch).

(** The value of the ["metadata"] field of a row of [upsert_batch]. *)
Definition batch_metadata (doc : dict) : outcome pyval :=
  if is_dict (dict_get "metadata" (PDict []) doc)
  then obind (json_dumps (dict_get "metadata" (PDict []) doc))
             (fun s => Return (PStr s))
  else Return (dict_get "metadata" (PStr "{}") doc).

(** [for i, doc in enumerate(batch): if i < len(embeddings) and ...:
    rows.append({...})], from position [i] on. *)
Fixpoint rows_from (i : nat) (batch : list dict) (embeddings : pyval)
  : outcome (list pyval) :=
  match batch with
  | [] => Return []
  | doc :: rest =>
      obind (py_len embeddings) (fun n =>
      if (Z.of_nat i <? n) && has_content doc then
        obind (dict_item "doc_id" doc) (fun doc_id =>
        obind (dict_item "content" doc) (fun content =>
        obind (py_index embeddings i) (fun embedding =>
        obind (batch_metadata doc) (fun metadata =>
        obind (rows_from (S i) rest embeddings) (fun rows =>
        Return (PDict [("doc_id", doc_id);
                       ("content", content);
                       ("embedding", embedding);
                       ("metadata", metadata)] :: rows))))))
      else rows_from (S i) rest embeddings)
  end.

(** The body of [for batch in batches], [results] being what the earlier
    batches returned. *)
Fixpoint upsert_batches (batches : list (list dict)) (results : list pyval)
  : M (list pyval) :=
  match batches with
  | [] => ret results
  | batch :: rest =>
      match contents_of batch with
      | [] => upsert_batches rest results
      | contents =>
          embeddings <- _embed_batch contents ;;
          rows <- lift (rows_from 0 batch embeddings) ;;
          match rows with
          | [] => upsert_batches rest results
          | _ =>
              response <- call (execute svc (documents (Upsert (PList rows)))) ;;
              match error response with
              | Some err => raise (RuntimeError ("Batch upsert error: " ++ err))
              | None =>
                  match data response with
                  | None => raise (TypeError "'NoneType' object is not iterable")
                  | Some written => upsert_batches rest (results ++ written)
                  end
              end
          end
      end
  end.

Definition upsert_batch (docs : list dict) : M (list pyval) :=
  match docs with
  | [] => ret []
  | _ =>
      try_except (upsert_batches (slices _BATCH_SIZE docs) [])
                 (fun e => raise e)
  end.

(** [if isinstance(row.get("metadata"), str): try: row["metadata"] =
    json.loads(row["metadata"])  except json.JSONDecodeError: pass] *)
Definition parse_metadata (row : pyval) : outcome pyval :=
  obind (py_get "metadata" PNone row) (fun metadata =>
  match metadata, row with
  | PStr s, PDict fields =>
      match json_loads s with
      | Some parsed => Return (PDict (dict_set "metadata" parsed fields))
      | None => Return row
      end
  | _, _ => Return row
  end).

(** [for row in rows: ...] *)
Fixpoint parse_all_metadata (rows : list pyval) : outcome (list pyval) :=
  match rows with
  | [] => Return []
  | row :: rest =>
      obind (parse_metadata row) (fun row' =>
      obind (parse_all_metadata rest) (fun rest' =>
      Return (row' :: rest')))
  end.

(** [query.lower()] without its question marks and full stops, then
    [.split()]. *)
Definition query_words_of (query : string) : list string :=
  Str.split (Str.remove_char "." (Str.remove_char "?" (Str.lower query))).

Definition all_columns : verb := Select "*" None.

(** Fallback, first part: [for i in range(len(query_words))], from index
    [i] on, [suffix] being [query_words[i:]].  [Some rows] is the
    [return response.data] inside the loop, [None] the end of the loop. *)
Fixpoint narrow_from (i : nat) (suffix : list string) (top_k : Z)
  : M (option (list pyval)) :=
  match suffix with
  | [] => ret None
  | _ :: rest =>
      if (3 <? i)%nat then ret None
      else
        let search_term := "%" ++ Str.join "%" suffix ++ "%" in
        response <- call (execute svc
                      (limit top_k (ilike "content" search_term (documents all_columns)))) ;;
        match rows_of response with
        | [] => narrow_from (S i) rest top_k
        | rows =>
            print svc ("[supabase_search] Found " ++ str_len (List.length rows)
                       ++ " results with fallback (term: " ++ search_term ++ ")") ;;
            ret (Some rows)
        end
  end.

(** Fallback, second part: [if "project" in query.lower(): ...]. *)
Definition project_heuristic (query : string) (top_k : Z)
  : M (option (list pyval)) :=
  if Str.contains "project" (Str.lower query) then
    after <- lift (index (Str.split_on "project" (Str.lower query)) 1) ;;
    project_name <- lift (index (Str.split (Str.strip after)) 0) ;;
    if negb (Str.is_empty project_name) then
      let search_term := "%project " ++ project_name ++ "%" in
      response <- call (execute svc
                    (limit top_k (ilike "content" search_term (documents all_columns)))) ;;
      match rows_of response with
      | [] => ret None
      | rows => ret (Some rows)
      end
    else ret None
  else ret None.

(** [for doc in response.data: ...] of the client-side search.
    [query_terms] is a set in the source; [any] over it does not depend
    on the order or on repetitions. *)
Fixpoint filter_documents (query_terms : list string) (top_k : Z)
  (docs results : list pyval) : outcome (list pyval) :=
  match docs with
  | [] => Return results
  | doc :: rest =>
      obind (py_get "content" (PStr EmptyString) doc) (fun field =>
      obind (py_lower field) (fun content =>
      if existsb (fun term => Str.contains term content) query_terms then
        let results := (results ++ [doc])%list in
        if Z.of_nat (List.length results) >=? top_k then Return results
        else filter_documents query_terms top_k rest results
      else filter_documents query_terms top_k rest results))
  end.

(** Fallback, third part: "Last resort: just get all documents and filter
    client-side". *)
Definition client_side_filter (query : string) (top_k : Z) : M (list pyval) :=
  response <- call (execute svc (limit 100 (documents all_columns))) ;;
  match rows_of response with
  | [] => ret []
  | docs =>
      results <- lift (filter_documents (query_words_of query) top_k docs []) ;;
      ret (slice_to top_k results)
  end.

(** Fallback, the handler: "Absolute last resort - just return any
    documents". *)
Definition any_documents (top_k : Z) : M (list pyval) :=
  try_except
    (response <- call (execute svc (limit top_k (documents all_columns))) ;;
     ret (rows_of response))
    (fun _ => ret []).

(** The first statement, the [print] of the query, stands before the
    [try]. *)
Definition search_fallback (query : string) (top_k : Z) : M (list pyval) :=
  print svc ("[supabase_search] Using fallback search for: " ++ query) ;;
  try_except
    (narrowed <- narrow_from 0 (query_words_of query) top_k ;;
     match narrowed with
     | Some rows => ret rows
     | None =>
         by_project <- project_heuristic query top_k ;;
         match by_project with
         | Some rows => ret rows
         | None => client_side_filter query top_k
         end
     end)
    (fun _ => any_documents top_k).

(** The statement of [search], up to white space. *)
Definition search_sql : string :=
  "SELECT doc_id, content, metadata, 1 - (embedding <=> $1::vector) as score FROM documents ORDER BY embedding <=> $1::vector LIMIT $2".

Definition search_params (q_emb : pyval) (top_k : Z) : pyval :=
  PDict [("sql", PStr search_sql);
         ("params", PDict [("vec", q_emb); ("k", PInt top_k)])].

Definition search (query : string) (top_k : Z) : M (list pyval) :=
  try_except
    (if Str.blank query
     then raise (ValueError "Search query cannot be empty")
     else
       q_emb <- _embed_single query ;;
       response <- call (rpc svc "exec_sql" (search_params q_emb top_k)) ;;
       match error response with
       | Some _ => search_fallback query top_k
       | None =>
           rows <- lift (parse_all_metadata (rows_of response)) ;;
           match rows with
           | [] => search_fallback query top_k
           | _ => ret rows
           end
       end)
    (fun _ => search_fallback query top_k).

Definition delete (doc_id : string) : M bool :=
  try_except
    (response <- call (execute svc (eq_ "doc_id" doc_id (documents Delete))) ;;
     match error response with
     | Some err => raise (RuntimeError ("Delete error: " ++ err))
     | None =>
         match data response with
         | None => raise (TypeError "object of type 'NoneType' has no len()")
         | Some rows => ret (0 <? Z.of_nat (List.length rows))
         end
     end)
    (fun _ => ret false).

(** The result is [PNone] for Python's [None]. *)
Definition get_document (doc_id : string) : M pyval :=
  try_except
    (response <- call (execute svc (eq_ "doc_id" doc_id (documents all_columns))) ;;
     match error response with
     | Some err => raise (RuntimeError ("Get document error: " ++ err))
     | None =>
         match rows_of response with
         | [] => ret PNone
         | document :: _ => lift (parse_metadata document)
         end
     end)
    (fun _ => ret PNone).

Definition count_documents : M pyval :=
  try_except
    (response <- call (execute svc (documents (Select "count(*)" (Some "exact")))) ;;
     match error response with
     | Some err => raise (RuntimeError ("Count error: " ++ err))
     | None =>
         match count response with
         | Some n => ret n
         | None => ret (PInt 0)
         end
     end)
    (fun _ => ret (PInt 0)).

End Store.

Arguments _embed_single {Remote} svc text _.
Arguments _embed_batch {Remote} svc texts _.
Arguments embed_single_attempts {Remote} svc left text _.
Arguments embed_batch_attempts {Remote} svc left valid_texts _.
Arguments embed_single_uncached {Remote} svc text _.
Arguments upsert {Remote} svc json_dumps doc_id content metadata _.
Arguments upsert_batch {Remote} svc json_dumps docs _.
Arguments upsert_batches {Remote} svc json_dumps batches results _.
Arguments narrow_from {Remote} svc i suffix top_k _.
Arguments project_heuristic {Remote} svc query top_k _.
Arguments client_side_filter {Remote} svc query top_k _.
Arguments any_documents {Remote} svc top_k _.
Arguments search_fallback {Remote} svc query top_k _.
Arguments search {Remote} svc json_loads query top_k _.
Arguments delete {Remote} svc doc_id _.
Arguments get_document {Remote} svc json_loads doc_id _.
Arguments count_documents {Remote} svc _.

(** ** An in-memory stand-in for the two services

    The services are outside the repository.  This double follows the
    interface the module uses: one [documents] table keyed by [doc_id]
    with upsert, delete, equality and [ILIKE] filters, [LIMIT] and an
    exact count; an embedding endpoint that answers one vector per input;
    and switches to make the next calls fail. *)
Module Mem.

Record state : Type := mkState {
  (** the rows of [documents], in insertion order *)
  rows : list dict;
  (** how many of the next calls to the embedding endpoint raise *)
  embed_failures : nat;
  (** how many of the next calls to the database raise *)
  db_failures : nat;
  (** what [exec_sql] answers to the similarity statement *)
  similarity : Response }.

(** The vector of a text: its character codes, so that different texts
    have different vectors. *)
Fixpoint vector_of (s : string) : list pyval :=
  match s with
  | EmptyString => []
  | String c s' => PFloat (inject_Z (Z.of_N (Str.code c))) :: vector_of s'
  end.

Fixpoint vectors_of (inputs : list pyval) : outcome (list pyval) :=
  match inputs with
  | [] => Return []
  | PStr s :: rest =>
      obind (vectors_of rest) (fun vs => Return (PList (vector_of s) :: vs))
  | _ => Raise (ServiceError "invalid input")
  end.

Definition embeddings_create (model : string) (input : pyval) (st : state)
  : outcome (list pyval) * state :=
  match embed_failures st with
  | S n =>
      (Raise (ServiceError "embedding endpoint unavailable"),
       mkState (rows st) n (db_failures st) (similarity st))
  | O =>
      match input with
      | PStr s => (Return [PList (vector_of s)], st)
      | PList inputs => (vectors_of inputs, st)
      | _ => (Raise (ServiceError "invalid input"), st)
      end
  end.

(** SQL [LIKE]: [%] matches any run of characters, [_] any one
    character, a backslash takes the next character literally. *)
Fixpoint like (pattern text : list ascii) : bool :=
  match pattern with
  | [] => match text with [] => true | _ => false end
  | "%"%char :: p' =>
      (fix any_run (t : list ascii) : bool :=
         like p' t || match t with [] => false | _ :: t' => any_run t' end) text
  | "_"%char :: p' =>
      match text with [] => false | _ :: t' => like p' t' end
  | "\"%char :: c :: p' =>
      match text with [] => false | d :: t' => Ascii.eqb c d && like p' t' end
  | c :: p' =>
      match text with [] => false | d :: t' => Ascii.eqb c d && like p' t' end
  end.

Definition ilike_match (pattern text : string) : bool :=
  like (list_ascii_of_string (Str.lower pattern))
       (list_ascii_of_string (Str.lower text)).

Definition holds (c : condition) (row : dict) : bool :=
  match c with
  | Eq column value =>
      match dict_find column row with
      | Some (PStr s) => (s =? value)%string
      | _ => false
      end
  | ILike column pattern =>
      match dict_find column row with
      | Some (PStr s) => ilike_match pattern s
      | _ => false
      end
  end.

Definition selected (q : query) (row : dict) : bool :=
  forallb (fun c => holds c row) (q_filters q).

Definition doc_id_of (row : dict) : option string :=
  match dict_find "doc_id" row with
  | Some (PStr s) => Some s
  | _ => None
  end.

Definition same_id (id : string) (row : dict) : bool :=
  match doc_id_of row with
  | Some s => (s =? id)%string
  | None => false
  end.

(** Insert-or-replace keyed by [doc_id]: the row takes the place of the
    first row with its id, or goes to the end. *)
Fixpoint put (id : string) (row : dict) (table : list dict) : list dict :=
  match table with
  | [] => [row]
  | r :: table' =>
      if same_id id r then row :: table' else r :: put id row table'
  end.

(** The rows of an upsert must be dictionaries with a string [doc_id]. *)
Fixpoint put_all (new_rows : list pyval) (table : list dict)
  : option (list dict) :=
  match new_rows with
  | [] => Some table
  | PDict row :: rest =>
      match doc_id_of row with
      | Some id => put_all rest (put id row table)
      | None => None
      end
  | _ => None
  end.

Definition answer (st : state) (table : list dict) (found : list dict)
  (n : option pyval) : outcome Response * state :=
  (Return (mkResponse (Some (map PDict found)) None n),
   mkState table (embed_failures st) (db_failures st) (similarity st)).

Definition refuse (st : state) (msg : string) : outcome Response * state :=
  (Raise (ServiceError msg), st).

Definition execute (q : query) (st : state) : outcome Response * state :=
  match db_failures st with
  | S n =>
      (Raise (ServiceError "database unavailable"),
       mkState (rows st) (embed_failures st) n (similarity st))
  | O =>
      match q_verb q with
      | Upsert payload =>
          let new_rows := match payload with PList l => l | row => [row] end in
          match put_all new_rows (rows st) with
          | Some table' =>
              (Return (mkResponse (Some new_rows) None None),
               mkState table' (embed_failures st) 0 (similarity st))
          | None => refuse st "invalid row"
          end
      | Delete =>
          answer st (List.filter (fun r => negb (selected q r)) (rows st))
                 (List.filter (selected q) (rows st)) None
      | Select _ counting =>
          let found := List.filter (selected q) (rows st) in
          let n := match counting with
                   | Some _ => Some (PInt (Z.of_nat (List.length found)))
                   | None => None
                   end in
          match q_limit q with
          | None => answer st (rows st) found n
          | Some k =>
              if k <? 0 then refuse st "negative limit"
              else answer st (rows st) (firstn (Z.to_nat k) found) n
          end
      end
  end.

Definition rpc (name : string) (params : pyval) (st : state)
  : outcome Response * state :=
  match db_failures st with
  | S n =>
      (Raise (ServiceError "database unavailable"),
       mkState (rows st) (embed_failures st) n (similarity st))
  | O => (Return (similarity st), st)
  end.

(** The standard output of the double is UTF-8: it encodes every
    character. *)
Definition svc : Services state :=
  mkServices state embeddings_create execute rpc (fun _ => true).

(** The same services in a process whose standard output is ASCII. *)
Definition svc_ascii : Services state :=
  mkServices state embeddings_create execute rpc (fun _ => false).

(** A world with the given table, healthy services, nothing cached, and
    a similarity statement that finds nothing. *)
Definition no_rows : Response := mkResponse (Some []) None None.

Definition world (table : list dict) : World state :=
  mkWorld (mkState table 0 0 no_rows) [] [].

Definition world_failing (table : list dict) (embed db : nat) : World state :=
  mkWorld (mkState table embed db no_rows) [] [].

Definition world_answering (table : list dict) (r : Response) : World state :=
  mkWorld (mkState table 0 0 r) [] [].

End Mem.

(** ** A JSON codec for the in-memory runs

    [json] is Python's library, not the repository's; the store functions
    take [json.dumps] and [json.loads] as parameters.  The runs on the
    in-memory services use this codec, which follows the library on
    [None], booleans, integers, strings, lists and dictionaries: the
    default separators and [ensure_ascii] on the way out, the strict
    grammar on the way in.  Floats are outside it in both directions, and
    so is an escape for a code point of 256 or more, which no string of
    this model holds. *)
Module Json.

Definition quote : ascii := ascii_of_nat 34.
Definition backslash : ascii := ascii_of_nat 92.

Definition hex_digit (n : N) : ascii :=
  if (n <? 10)%N then ascii_of_N (48 + n) else ascii_of_N (87 + n).

(** One character of a string literal: the short escapes, the character
    itself from the space to the tilde, and a [\u00xx] escape for the
    rest. *)
Definition escape_char (c : ascii) : string :=
  let n := Str.code c in
  let short (d : ascii) := String backslash (String d EmptyString) in
  if Ascii.eqb c quote then short quote
  else if Ascii.eqb c backslash then short backslash
  else if (n =? 10)%N then short "n"%char
  else if (n =? 13)%N then short "r"%char
  else if (n =? 9)%N then short "t"%char
  else if (n =? 8)%N then short "b"%char
  else if (n =? 12)%N then short "f"%char
  else if ((32 <=? n) && (n <=? 126))%N then String c EmptyString
  else String backslash
         (String "u"%char (String "0"%char (String "0"%char
            (String (hex_digit (n / 16)) (String (hex_digit (n mod 16)) EmptyString))))).

Fixpoint escape (s : string) : string :=
  match s with
  | EmptyString => EmptyString
  | String c s' => escape_char c ++ escape s'
  end.

Definition quoted (s : string) : string :=
  String quote (escape s ++ String quote EmptyString).

Fixpoint digits_of (fuel : nat) (n : N) (acc : string) : string :=
  match fuel with
  | O => acc
  | S fuel' =>
      let acc' := String (ascii_of_N (48 + N.modulo n 10)) acc in
      if (n <? 10)%N then acc' else digits_of fuel' (N.div n 10) acc'
  end.

Definition decimal (z : Z) : string :=
  let n := Z.to_N (Z.abs z) in
  let ds := digits_of (S (N.to_nat (N.log2 n))) n EmptyString in
  if z <? 0 then String "-" ds else ds.

Fixpoint dumps_value (v : pyval) : outcome string :=
  match v with
  | PNone => Return "null"
  | PBool true => Return "true"
  | PBool false => Return "false"
  | PInt z => Return (decimal z)
  | PFloat _ => Raise (TypeError "floats are outside this codec")
  | PStr s => Return (quoted s)
  | PList items =>
      obind ((fix dumps_items (l : list pyval) : outcome (list string) :=
                match l with
                | [] => Return []
                | x :: l' =>
                    obind (dumps_value x) (fun sx =>
                    obind (dumps_items l') (fun rest => Return (sx :: rest)))
                end) items)
            (fun parts => Return ("[" ++ Str.join ", " parts ++ "]"))
  | PDict fields =>
      obind ((fix dumps_fields (l : list (string * pyval)) : outcome (list string) :=
                match l with
                | [] => Return []
                | (k, x) :: l' =>
                    obind (dumps_value x) (fun sx =>
                    obind (dumps_fields l') (fun rest =>
                    Return ((quoted k ++ ": " ++ sx) :: rest)))
                end) fields)
            (fun parts => Return ("{" ++ Str.join ", " parts ++ "}"))
  end.

Definition dumps : pyval -> outcome string := dumps_value.

Definition chars : Type := list ascii.

(** The white space of JSON: space, tab, line feed, carriage return. *)
Definition is_blank (c : ascii) : bool :=
  let n := Str.code c in
  ((n =? 32) || (n =? 9) || (n =? 10) || (n =? 13))%N.

Fixpoint skip_space (s : chars) : chars :=
  match s with
  | c :: s' => if is_blank c then skip_space s' else s
  | [] => []
  end.

Definition hex_value (c : ascii) : option N :=
  let n := Str.code c in
  if ((48 <=? n) && (n <=? 57))%N then Some (n - 48)%N
  else if ((97 <=? n) && (n <=? 102))%N then Some (n - 87)%N
  else if ((65 <=? n) && (n <=? 70))%N then Some (n - 55)%N
  else None.

(** The character of [\uxxxx], the four digits given. *)
Definition unicode_escape (a b c d : ascii) : option ascii :=
  match hex_value a, hex_value b, hex_value c, hex_value d with
  | Some x, Some y, Some z, Some t =>
      let n := (((x * 16 + y) * 16 + z) * 16 + t)%N in
      if (n <? 256)%N then Some (ascii_of_N n) else None
  | _, _, _, _ => None
  end.

(** The characters of a string literal after its opening quote.  A
    control character must be escaped. *)
Fixpoint read_string (s : chars) (acc : string) : option (string * chars) :=
  match s with
  | [] => None
  | c :: s' =>
      let more (d : ascii) (rest : chars) :=
        read_string rest (acc ++ String d EmptyString) in
      if Ascii.eqb c quote then Some (acc, s')
      else if Ascii.eqb c backslash then
        match s' with
        | "u"%char :: x :: y :: z :: t :: rest =>
            match unicode_escape x y z t with
            | Some d => more d rest
            | None => None
            end
        | "n"%char :: rest => more (ascii_of_nat 10) rest
        | "r"%char :: rest => more (ascii_of_nat 13) rest
        | "t"%char :: rest => more (ascii_of_nat 9) rest
        | "b"%char :: rest => more (ascii_of_nat 8) rest
        | "f"%char :: rest => more (ascii_of_nat 12) rest
        | "/"%char :: rest => more "/"%char rest
        | d :: rest =>
            if Ascii.eqb d quote || Ascii.eqb d backslash then more d rest
            else None
        | [] => None
        end
      else if (Str.code c <? 32)%N then None
      else more c s'
  end.

Definition is_digit (c : ascii) : bool :=
  ((48 <=? Str.code c) && (Str.code c <=? 57))%N.

Fixpoint read_digits (s : chars) (acc : N) : N * chars :=
  match s with
  | c :: s' =>
      if is_digit c then read_digits s' (10 * acc + (Str.code c - 48))%N
      else (acc, s)
  | [] => (acc, [])
  end.

(** The digits of an integer, [s] starting with a digit: a zero stands
    alone.  What follows must not continue the number as a float. *)
Definition read_integer (s : chars) : option (N * chars) :=
  let (n, r) :=
    match s with
    | "0"%char :: r => (0%N, r)
    | _ => read_digits s 0
    end in
  match r with
  | "."%char :: _ | "e"%char :: _ | "E"%char :: _ => None
  | _ => Some (n, r)
  end.

Fixpoint parse_value (fuel : nat) (s : chars) : option (pyval * chars) :=
  match fuel with
  | O => None
  | S fuel' =>
      match skip_space s with
      | "n"%char :: "u"%char :: "l"%char :: "l"%char :: r => Some (PNone, r)
      | "t"%char :: "r"%char :: "u"%char :: "e"%char :: r => Some (PBool true, r)
      | "f"%char :: "a"%char :: "l"%char :: "s"%char :: "e"%char :: r => Some (PBool false, r)
      | "["%char :: r =>
          match skip_space r with
          | "]"%char :: r' => Some (PList [], r')
          | _ =>
              match parse_items fuel' r [] with
              | Some (items, r') => Some (PList items, r')
              | None => None
              end
          end
      | "{"%char :: r =>
          match skip_space r with
          | "}"%char :: r' => Some (PDict [], r')
          | _ =>
              match parse_fields fuel' r [] with
              | Some (fields, r') => Some (PDict fields, r')
              | None => None
              end
          end
      | "-"%char :: c :: r =>
          if is_digit c then
            match read_integer (c :: r) with
            | Some (n, r') => Some (PInt (- Z.of_N n), r')
            | None => None
            end
          else None
      | c :: r =>
          if Ascii.eqb c quote then
            match read_string r EmptyString with
            | Some (str, r') => Some (PStr str, r')
            | None => None
            end
          else if is_digit c then
            match read_integer (c :: r) with
            | Some (n, r') => Some (PInt (Z.of_N n), r')
            | None => None
            end
          else None
      | [] => None
      end
  end
with parse_items (fuel : nat) (s : chars) (acc : list pyval)
  : option (list pyval * chars) :=
  match fuel with
  | O => None
  | S fuel' =>
      match parse_value fuel' s with
      | Some (v, r) =>
          match skip_space r with
          | ","%char :: r' => parse_items fuel' r' (acc ++ [v])%list
          | "]"%char :: r' => Some ((acc ++ [v])%list, r')
          | _ => None
          end
      | None => None
      end
  end
with parse_fields (fuel : nat) (s : chars) (acc : dict) : option (dict * chars) :=
  match fuel with
  | O => None
  | S fuel' =>
      match skip_space s with
      | c :: r =>
          if Ascii.eqb c quote then
            match read_string r EmptyString with
            | Some (key, r1) =>
                match skip_space r1 with
                | ":"%char :: r2 =>
                    match parse_value fuel' r2 with
                    | Some (v, r3) =>
                        match skip_space r3 with
                        | ","%char :: r4 => parse_fields fuel' r4 (dict_set key v acc)
                        | "}"%char :: r4 => Some (dict_set key v acc, r4)
                        | _ => None
                        end
                    | None => None
                    end
                | _ => None
                end
            | None => None
            end
          else None
      | [] => None
      end
  end.

Definition loads (s : string) : option pyval :=
  let cs := list_ascii_of_string s in
  match parse_value (S (List.length cs)) cs with
  | Some (v, r) => match skip_space r with [] => Some v | _ => None end
  | None => None
  end.

End Json.

(** ** Notions the statements below use *)

(** A call to the database fails: the client raises, or the response
    carries an error. *)
Definition backend_failure {Remote} (r : outcome Response * Remote) : Prop :=
  match fst r with
  | Raise _ => True
  | Return response => error response <> None
  end.

(** The similarity query of [search] gives nothing to return, leaving the
    world [w']: the embedding call raises, the [exec_sql] call raises, its
    response carries an error, or it has no rows. *)
Inductive similarity_unavailable {Remote} (svc : Services Remote)
  (query : string) (top_k : Z) (w w' : World Remote) : Prop :=
| embedding_raises (e : exn) :
    _embed_single svc query w = (Raise e, w') ->
    similarity_unavailable svc query top_k w w'
| statement_raises (q_emb : pyval) (w1 : World Remote) (e : exn) :
    _embed_single svc query w = (Return q_emb, w1) ->
    call (rpc svc "exec_sql" (search_params q_emb top_k)) w1 = (Raise e, w') ->
    similarity_unavailable svc query top_k w w'
| statement_error (q_emb : pyval) (w1 : World Remote) (r : Response) (msg : string) :
    _embed_single svc query w = (Return q_emb, w1) ->
    call (rpc svc "exec_sql" (search_params q_emb top_k)) w1 = (Return r, w') ->
    error r = Some msg ->
    similarity_unavailable svc query top_k w w'
| statement_empty (q_emb : pyval) (w1 : World Remote) (r : Response) :
    _embed_single svc query w = (Return q_emb, w1) ->
    call (rpc svc "exec_sql" (search_params q_emb top_k)) w1 = (Return r, w') ->
    error r = None ->
    rows_of r = [] ->
    similarity_unavailable svc query top_k w w'.

(** The policy of the lexical fallback in the words of the specification:
    an ordered sequence of stages, each giving rows or nothing, tried in
    order until one gives rows. *)
Fixpoint first_yielding {Remote} (stages : list (Py Remote (list pyval)))
  : Py Remote (list pyval) :=
  match stages with
  | [] => ret []
  | stage :: rest =>
      rows <- stage ;;
      match rows with
      | [] => first_yielding rest
      | _ => ret rows
      end
  end.

(** A part of the fallback seen as a stage: no result is no rows. *)
Definition as_stage {Remote} (part : Py Remote (option (list pyval)))
  : Py Remote (list pyval) :=
  found <- part ;;
  ret (match found with Some rows => rows | None => [] end).

Definition stage1 {Remote} (svc : Services Remote) (query : string) (top_k : Z)
  : Py Remote (list pyval) :=
  as_stage (narrow_from svc 0 (query_words_of query) top_k).

Definition stage2 {Remote} (svc : Services Remote) (query : string) (top_k : Z)
  : Py Remote (list pyval) :=
  as_stage (project_heuristic svc query top_k).

Definition stage3 {Remote} (svc : Services Remote) (query : string) (top_k : Z)
  : Py Remote (list pyval) :=
  client_side_filter svc query top_k.

Definition stage4 {Remote} (svc : Services Remote) (query : string) (top_k : Z)
  : Py Remote (list pyval) :=
  any_documents svc top_k.

(** The queries [count_documents], [get_document], [delete] and [upsert]
    send. *)
Definition count_query : query := documents (Select "count(*)" (Some "exact")).
Definition get_query (doc_id : string) : query :=
  eq_ "doc_id" doc_id (documents all_columns).
Definition delete_query (doc_id : string) : query :=
  eq_ "doc_id" doc_id (documents Delete).
Definition upsert_query (doc_id content : string) (embedding metadata : pyval)
  : query :=
  documents (Upsert (PDict [("doc_id", PStr doc_id);
                            ("content", PStr content);
                            ("embedding", embedding);
                            ("metadata", metadata)])).

(** The field [key] of every row. *)
Definition column (key : string) (rows : list pyval) : list (outcome pyval) :=
  map (py_get key PNone) rows.

(** ** Sample data for the runs *)

Definition doc (id content : string) : dict :=
  [("doc_id", PStr id); ("content", PStr content); ("metadata", PDict [])].

Definition row (id content : string) (vector : list pyval) : pyval :=
  PDict [("doc_id", PStr id); ("content", PStr content);
         ("embedding", PList vector); ("metadata", PStr "{}")].

Definition pets : list dict := [doc "1" "cats"; doc "2" "my dog"].

(** A query with a character beyond ASCII: [caf] and e acute (code point
    233). *)
Definition cafe : string := "caf" ++ String (ascii_of_nat 233) EmptyString.

Definition scored (id : string) (score : Q) : pyval :=
  PDict [("doc_id", PStr id); ("content", PStr "text"); ("metadata", PNone);
         ("score", PFloat score)].

Definition handbook : pyval :=
  PDict [("source", PStr "handbook"); ("page", PInt 12);
         ("tags", PList [PStr "hr"; PBool true; PNone])].

(** The text [json.dumps] gives for [handbook]. *)
Definition handbook_json : string :=
  Eval vm_compute in
    match Json.dumps handbook with Return s => s | Raise _ => EmptyString end.

(** ** The rest of the vector store class *)
Section StoreMore.

Variable Remote : Type.
Variable svc : Services Remote.

Local Abbreviation M := (Py Remote).

Definition newline : string := String (ascii_of_nat 10) EmptyString.

(** The twelve blanks that start each line of the statement of
    [delete_batch] in the source. *)
Definition margin : string := "            ".

(** [f"'{doc_id}'"] *)
Definition quoted_id (doc_id : string) : string := "'" ++ doc_id ++ "'".

(** [", ".join(f"'{doc_id}'" for doc_id in doc_ids)] *)
Definition doc_ids_str (doc_ids : list string) : string :=
  Str.join ", " (map quoted_id doc_ids).

(** The f-string of [delete_batch], line by line. *)
Definition delete_batch_sql (doc_ids : list string) : string :=
  newline ++ margin ++ "DELETE FROM documents " ++
  newline ++ margin ++ "WHERE doc_id IN (" ++ doc_ids_str doc_ids ++ ")" ++
  newline ++ margin ++ "RETURNING doc_id;" ++
  newline ++ margin.

Definition delete_batch_params (doc_ids : list string) : pyval :=
  PDict [("sql", PStr (delete_batch_sql doc_ids)); ("params", PDict [])].

(** [self.cli.postgrest.rpc] is the call [self.cli.rpc] forwards to; both
    are the [rpc] of the services. *)
Definition delete_batch (doc_ids : list string) : M Z :=
  match doc_ids with
  | [] => ret 0
  | _ =>
      try_except
        (response <- call (rpc svc "exec_sql" (delete_batch_params doc_ids)) ;;
         match error response with
         | Some err => raise (RuntimeError ("Batch delete error: " ++ err))
         | None => ret (Z.of_nat (List.length (rows_of response)))
         end)
        (fun _ => ret 0)
  end.

(** [[0.0] * 1536] *)
Definition dummy_vector : pyval := PList (repeat (PFloat 0) 1536).

(** The probe statement of [check_database_setup], up to white space. *)
Definition probe_sql : string :=
  "SELECT 1 FROM documents WHERE embedding <=> %(vec)s::vector LIMIT 1;".

Definition probe_params : pyval :=
  PDict [("sql", PStr probe_sql); ("params", PDict [("vec", dummy_vector)])].

Definition check_database_setup : M bool :=
  try_except
    (response <- call (execute svc (documents (Select "count(*)" (Some "exact")))) ;;
     match error response with
     | Some _ => ret false
     | None =>
         try_except
           (_ <- call (rpc svc "exec_sql" probe_params) ;;
            ret true)
           (fun _ => ret false)
     end)
    (fun _ => ret false).

(** The body only prints the instructions. *)
Definition setup_database : M bool :=
  try_except (ret false) (fun _ => ret false).

End StoreMore.

Arguments delete_batch {Remote} svc doc_ids _.
Arguments check_database_setup {Remote} svc _.
Arguments setup_database {Remote} _.

(** ** The agent tools: [personal_assistant/tools/supabase_tools.py] *)
Section Tools.

Variable Remote : Type.
Variable svc : Services Remote.
Variable json_dumps : pyval -> outcome string.
Variable json_loads : string -> option pyval.

(** [str(e)] on an exception. *)
Variable str_exn : exn -> string.

Local Abbreviation M := (Py Remote).

Definition status (name : string) (rest : dict) : pyval :=
  PDict (("status", PStr name) :: rest).

Definition failed (e : exn) : pyval :=
  status "error" [("message", PStr (str_exn e))].

(** [content[:50]] is [substring 0 50 content]. *)
Definition supabase_upsert (doc_id content : string) (metadata : pyval) : M pyval :=
  try_except
    (print svc ("[supabase_upsert] Storing document: id=" ++ doc_id
                ++ ", content=" ++ substring 0 50 content ++ "...") ;;
     row <- upsert svc json_dumps doc_id content metadata ;;
     ret (status "success" [("row", row)]))
    (fun e => ret (failed e)).

Definition supabase_upsert_batch (docs : list dict) : M pyval :=
  try_except
    (results <- upsert_batch svc json_dumps docs ;;
     ret (status "success"
            [("message", PStr ("Successfully processed "
                               ++ str_len (List.length results) ++ " documents"));
             ("count", PInt (Z.of_nat (List.length results)))]))
    (fun e => ret (failed e)).

Definition supabase_search (query : string) (top_k : Z) : M pyval :=
  try_except
    (print svc ("[supabase_search] Searching for: " ++ query) ;;
     hits <- search svc json_loads query top_k ;;
     ret (status "success" [("hits", PList hits)]))
    (fun e => ret (failed e)).

Definition supabase_delete (doc_id : string) : M pyval :=
  try_except
    (print svc ("[supabase_delete] Deleting document: id=" ++ doc_id) ;;
     success <- delete svc doc_id ;;
     if (success : bool)
     then ret (status "success" [("message", PStr ("Document " ++ doc_id ++ " deleted"))])
     else ret (status "warning" [("message", PStr ("Document " ++ doc_id ++ " not found"))]))
    (fun e => ret (failed e)).

Definition supabase_get_document (doc_id : string) : M pyval :=
  try_except
    (print svc ("[supabase_get_document] Retrieving document: id=" ++ doc_id) ;;
     document <- get_document svc json_loads doc_id ;;
     if truthy document
     then ret (status "success" [("document", document)])
     else ret (status "not_found"
                 [("message", PStr ("Document " ++ doc_id ++ " not found"))]))
    (fun e => ret (failed e)).

Definition supabase_count_documents : M pyval :=
  try_except
    (n <- count_documents svc ;;
     ret (status "success" [("count", n)]))
    (fun e => ret (failed e)).

End Tools.

Arguments supabase_upsert {Remote} svc json_dumps str_exn doc_id content metadata _.
Arguments supabase_upsert_batch {Remote} svc json_dumps str_exn docs _.
Arguments supabase_search {Remote} svc json_loads str_exn query top_k _.
Arguments supabase_delete {Remote} svc str_exn doc_id _.
Arguments supabase_get_document {Remote} svc json_loads str_exn doc_id _.
Arguments supabase_count_documents {Remote} svc str_exn _.

(** ** The memory service: [personal_assistant/memory_service.py]

    [MemoryRecord] is a class of the agent framework; the fields are the
    attributes the service reads and writes.  An [id] or [timestamp] that
    is [None] is the empty string here: the service only tests their truth
    value.  [_session_records] is a dictionary from session keys to lists
    of records. *)
Record MemoryRecord : Type := mkRecord {
  rec_id : string;
  rec_app_id : string;
  rec_user_id : string;
  rec_session_id : string;
  rec_text : string;
  rec_timestamp : string;
  rec_metadata : pyval }.

Definition sessions : Type := list (string * list MemoryRecord).

(** [f"{app_id}:{user_id}:{session_id}"] *)
Definition session_key (app_id user_id session_id : string) : string :=
  app_id ++ ":" ++ user_id ++ ":" ++ session_id.

Fixpoint sessions_find (key : string) (ss : sessions) : option (list MemoryRecord) :=
  match ss with
  | [] => None
  | (k, records) :: ss' =>
      if (k =? key)%string then Some records else sessions_find key ss'
  end.

(** [self._session_records[key] = records] *)
Fixpoint sessions_set (key : string) (records : list MemoryRecord) (ss : sessions)
  : sessions :=
  match ss with
  | [] => [(key, records)]
  | (k, old) :: ss' =>
      if (k =? key)%string then (k, records) :: ss'
      else (k, old) :: sessions_set key records ss'
  end.

(** [{base..., **extra}]: the keys of [extra] overwrite or extend. *)
Definition dict_merge (base extra : dict) : dict :=
  fold_left (fun acc kv => dict_set (fst kv) (snd kv) acc) extra base.

Section MemoryService.

Variable Remote : Type.
Variable svc : Services Remote.
Variable json_dumps : pyval -> outcome string.

(** [str(uuid.uuid4())] and [datetime.now().isoformat()]: what they give
    depends on the state of the host. *)
Variable uuid4 : Remote -> string * Remote.
Variable now_isoformat : Remote -> string * Remote.

Definition host (f : Remote -> string * Remote) (w : World Remote)
  : string * World Remote :=
  let (x, s') := f (services w) in (x, mkWorld s' (lru w) (slept w)).

(** The dictionary [create] passes to [upsert] as metadata. *)
Definition vector_metadata (record : MemoryRecord) (fields : dict) : pyval :=
  PDict (dict_merge
           [("app_id", PStr (rec_app_id record));
            ("user_id", PStr (rec_user_id record));
            ("session_id", PStr (rec_session_id record));
            ("timestamp", PStr (rec_timestamp record));
            ("type", dict_get "type" (PStr "memory") fields)]
           fields).

(** [create] changes the record it is given and returns it; the sessions
    and the world are what it leaves, also when it raises. *)
Definition memory_create (record : MemoryRecord) (ss : sessions) (w : World Remote)
  : outcome MemoryRecord * sessions * World Remote :=
  let (id, w1) :=
    if Str.is_empty (rec_id record) then host uuid4 w else (rec_id record, w) in
  let (timestamp, w2) :=
    if Str.is_empty (rec_timestamp record) then host now_isoformat w1
    else (rec_timestamp record, w1) in
  let record := mkRecord id (rec_app_id record) (rec_user_id record)
                         (rec_session_id record) (rec_text record) timestamp
                         (rec_metadata record) in
  let key := session_key (rec_app_id record) (rec_user_id record)
                         (rec_session_id record) in
  let earlier := match sessions_find key ss with Some l => l | None => [] end in
  let ss := sessions_set key (earlier ++ [record]) ss in
  if truthy (rec_metadata record) then
    match rec_metadata record with
    | PDict fields =>
        if truthy (dict_get "store_in_vector_db" (PBool false) fields) then
          let (_, w3) :=
            try_except
              (_ <- upsert svc json_dumps (rec_id record) (rec_text record)
                           (vector_metadata record fields) ;;
               print svc ("[MemoryService] Stored record " ++ rec_id record
                          ++ " in vector DB"))
              (fun _ => ret tt) w2 in
          (Return record, ss, w3)
        else (Return record, ss, w2)
    | _ => (Raise AttributeError, ss, w2)
    end
  else (Return record, ss, w2).

Definition memory_get (app_id user_id session_id record_id : string) (ss : sessions)
  : option MemoryRecord :=
  match sessions_find (session_key app_id user_id session_id) ss with
  | Some records => find (fun record => (rec_id record =? record_id)%string) records
  | None => None
  end.

Definition memory_list (app_id user_id session_id : string) (ss : sessions)
  : list MemoryRecord :=
  match sessions_find (session_key app_id user_id session_id) ss with
  | Some records => records
  | None => []
  end.

Definition memory_delete (app_id user_id session_id record_id : string)
  (ss : sessions) : bool * sessions :=
  let key := session_key app_id user_id session_id in
  match sessions_find key ss with
  | Some records =>
      (true,
       sessions_set key
         (List.filter (fun record => negb (rec_id record =? record_id)%string) records)
         ss)
  | None => (true, ss)
  end.

Definition memory_clear (app_id user_id session_id : string) (ss : sessions)
  : bool * sessions :=
  let key := session_key app_id user_id session_id in
  match sessions_find key ss with
  | Some _ => (true, sessions_set key [] ss)
  | None => (true, ss)
  end.

End MemoryService.

Arguments memory_create {Remote} svc json_dumps uuid4 now_isoformat record ss w.
Arguments host {Remote} f w.

(** A host for the runs: the identifiers and the clock are fixed. *)
Definition uuid_1 (st : Mem.state) : string * Mem.state :=
  ("00000000-0000-4000-8000-000000000001", st).
Definition noon (st : Mem.state) : string * Mem.state :=
  ("2025-05-01T12:00:00", st).

Definition note : MemoryRecord :=
  mkRecord EmptyString "personal_app" "u1" "s1" "AI is advancing rapidly in 2025."
           EmptyString (PDict [("store_in_vector_db", PBool true)]).

(** ** Notions the further statements use *)

(** One attempt of [_embed_single] on the services: the call, then
    [response.data[0].embedding]. *)
Definition attempt_single {Remote} (svc : Services Remote) (text : string)
  (s : Remote) : outcome pyval * Remote :=
  match embeddings_create svc EMBED_MODEL (PStr text) s with
  | (Return response_data, s') => (index response_data 0, s')
  | (Raise e, s') => (Raise e, s')
  end.

(** One attempt of [_embed_batch]: the call on the valid texts. *)
Definition attempt_batch {Remote} (svc : Services Remote) (valid_texts : list pyval)
  (s : Remote) : outcome pyval * Remote :=
  match embeddings_create svc EMBED_MODEL (PList valid_texts) s with
  | (Return response_data, s') => (Return (PList response_data), s')
  | (Raise e, s') => (Raise e, s')
  end.

(** The strings of a list that have something else than white space. *)
Definition non_blank (texts : list string) : list string :=
  List.filter (fun text => negb (Str.blank text)) texts.

(** A fetched row the client-side search can read: a dictionary whose
    [content], when it has one, is a string. *)
Definition readable (doc : pyval) : bool :=
  match doc with
  | PDict fields =>
      match dict_get "content" (PStr EmptyString) fields with
      | PStr _ => true
      | _ => false
      end
  | _ => false
  end.

(** Some term occurs in the lower-cased content of the row. *)
Definition mentions (terms : list string) (doc : pyval) : bool :=
  match doc with
  | PDict fields =>
      match dict_get "content" (PStr EmptyString) fields with
      | PStr content =>
          existsb (fun term => Str.contains term (Str.lower content)) terms
      | _ => false
      end
  | _ => false
  end.

(** The words, then the words without the first, and so on. *)
Fixpoint suffixes (words : list string) : list (list string) :=
  match words with
  | [] => []
  | _ :: rest => words :: suffixes rest
  end.

(** The patterns of the first part of the fallback: the first four
    suffixes, each joined and wrapped in wildcards. *)
Definition suffix_patterns (words : list string) : list string :=
  map (fun suffix => "%" ++ Str.join "%" suffix ++ "%") (firstn 4 (suffixes words)).

(** The [ILIKE] queries on the patterns, in order, up to the first that
    answers rows, which is announced on the standard output. *)
Fixpoint first_match {Remote} (svc : Services Remote) (patterns : list string)
  (top_k : Z) : Py Remote (option (list pyval)) :=
  match patterns with
  | [] => ret None
  | pattern :: rest =>
      response <- call (execute svc
                    (limit top_k (ilike "content" pattern (documents all_columns)))) ;;
      match rows_of response with
      | [] => first_match svc rest top_k
      | rows =>
          print svc ("[supabase_search] Found " ++ str_len (List.length rows)
                     ++ " results with fallback (term: " ++ pattern ++ ")") ;;
          ret (Some rows)
      end
  end.

(** No character of the string is a colon. *)
Fixpoint colon_free (s : string) : bool :=
  match s with
  | EmptyString => true
  | String c s' => negb (Ascii.eqb c ":") && colon_free s'
  end.

(** The record [create] files and returns: the record it was given with
    its id and time stamp filled in. *)
Definition filed {Remote} (uuid4 now_isoformat : Remote -> string * Remote)
  (record : MemoryRecord) (w : World Remote) : MemoryRecord :=
  let (id, w1) :=
    if Str.is_empty (rec_id record) then host uuid4 w else (rec_id record, w) in
  let (timestamp, _) :=
    if Str.is_empty (rec_timestamp record) then host now_isoformat w1
    else (rec_timestamp record, w1) in
  mkRecord id (rec_app_id record) (rec_user_id record) (rec_session_id record)
           (rec_text record) timestamp (rec_metadata record).

(** The row a document of a batch should become on the in-memory
    services: its id, its content, the vector of its content and its
    metadata serialised.  [None] for a document without a string id or
    without content that is a string and not blank, or whose metadata
    [json.dumps] refuses. *)
Definition aligned_row (json_dumps : pyval -> outcome string) (doc : dict)
  : option pyval :=
  match dict_find "doc_id" doc, dict_find "content" doc,
        batch_metadata json_dumps doc with
  | Some (PStr id), Some (PStr content), Return metadata =>
      if Str.blank content then None
      else Some (PDict [("doc_id", PStr id); ("content", PStr content);
                        ("embedding", PList (Mem.vector_of content));
                        ("metadata", metadata)])
  | _, _, _ => None
  end.

(** The content of a document when it is a string. *)
Definition text_of (doc : dict) : string :=
  match dict_find "content" doc with
  | Some (PStr content) => content
  | _ => EmptyString
  end.

(** ** More sample data *)

(** A [str] on exceptions for the runs: the message the exception
    carries, or the name of its class. *)
Definition message_of (e : exn) : string :=
  match e with
  | ValueError msg | RuntimeError msg | TypeError msg | ServiceError msg => msg
  | KeyError key => "'" ++ key ++ "'"
  | IndexError => "IndexError"
  | AttributeError => "AttributeError"
  | JSONDecodeError => "JSONDecodeError"
  | UnicodeEncodeError => "UnicodeEncodeError"
  end.

Definition unavailable : exn := ServiceError "embedding endpoint unavailable".

Definition hello_vector : pyval := PList (Mem.vector_of "hello").

Definition without_content : list dict :=
  [doc "a" EmptyString; [("doc_id", PStr "b")]; [("doc_id", PStr "c"); ("content", PNone)]].

Definition two_notes : sessions :=
  [("personal_app:u1:s1",
    [mkRecord "n1" "personal_app" "u1" "s1" "first" "t1" PNone;
     mkRecord "n2" "personal_app" "u1" "s1" "second" "t2" PNone;
     mkRecord "n1" "personal_app" "u1" "s1" "third" "t3" PNone]);
   ("personal_app:u2:s1",
    [mkRecord "n1" "personal_app" "u2" "s1" "other" "t4" PNone])].

Definition no_store : Services Mem.state :=
  mkServices Mem.state
    (fun _ _ st => (Raise unavailable, st))
    (fun _ st => (Raise (ServiceError "database unavailable"), st))
    (fun _ _ st => (Raise (ServiceError "database unavailable"), st))
    (fun _ => true).

(** A cache with a hundred entries, keyed "0" (most recent) to "99". *)
Definition full_cache : list (string * pyval) :=
  map (fun n => (str_len n, PInt (Z.of_nat n))) (seq 0 100).

(** A record with its id and time stamp, flagged for the vector store;
    its metadata names an [app_id] of its own. *)
Definition flagged_fields : dict :=
  [("store_in_vector_db", PBool true); ("app_id", PStr "imported")].

Definition flagged : MemoryRecord :=
  mkRecord "n7" "personal_app" "u1" "s1" "AI is advancing rapidly in 2025."
           "2025-05-01T12:00:00" (PDict flagged_fields).

Definition flagged_metadata : pyval :=
  PDict [("app_id", PStr "imported"); ("user_id", PStr "u1"); ("session_id", PStr "s1");
         ("timestamp", PStr "2025-05-01T12:00:00"); ("type", PStr "memory");
         ("store_in_vector_db", PBool true)].

(** The text [json.dumps] gives for [flagged_metadata]. *)
Definition flagged_json : string :=
  Eval vm_compute in
    match Json.dumps flagged_metadata with Return s => s | Raise _ => EmptyString end.

(** A row whose metadata is text that is not JSON. *)
Definition scribbled : dict :=
  [("doc_id", PStr "7"); ("content", PStr "notes"); ("metadata", PStr "to do: parse")].

(** * Properties *)

(** ** The monad *)

Section MonadFacts.

Context {Remote : Type}.
Implicit Types w : World Remote.

Lemma bind_returns {A B} (m : Py Remote A) (f : A -> Py Remote B) w a w1 :
  m w = (Return a, w1) -> bind m f w = f a w1.
Proof. intros H. unfold bind. now rewrite H. Qed.

Lemma bind_raises {A B} (m : Py Remote A) (f : A -> Py Remote B) w e w1 :
  m w = (Raise e, w1) -> bind m f w = (Raise e, w1).
Proof. intros H. unfold bind. now rewrite H. Qed.

Lemma try_returns {A} (m : Py Remote A) h w a w1 :
  m w = (Return a, w1) -> try_except m h w = (Return a, w1).
Proof. intros H. unfold try_except. now rewrite H. Qed.

Lemma try_raises {A} (m : Py Remote A) h w e w1 :
  m w = (Raise e, w1) -> try_except m h w = h e w1.
Proof. intros H. unfold try_except. now rewrite H. Qed.

(** A [try] whose handler always returns always returns. *)
Lemma try_total {A} (m : Py Remote A) h w :
  (forall e w1, exists a w2, h e w1 = (Return a, w2)) ->
  exists a w2, try_except m h w = (Return a, w2).
Proof.
  intros Hh. unfold try_except.
  destruct (m w) as [[a | e] w1]; eauto.
Qed.

(** Re-raising in the handler changes nothing. *)
Lemma try_reraise {A} (m : Py Remote A) w :
  try_except m (fun e => raise e) w = m w.
Proof. unfold try_except, raise. now destruct (m w) as [[a | e] w1]. Qed.

End MonadFacts.

(** ** Search and the standard output *)

Section SearchTotal.

Context {Remote : Type} (svc : Services Remote).
Variable json_loads : string -> option pyval.

Lemma printable_app a b :
  printable svc (a ++ b) = printable svc a && printable svc b.
Proof.
  unfold printable. induction a as [| c a IH]; cbn [append list_ascii_of_string forallb].
  - reflexivity.
  - now rewrite IH, andb_assoc.
Qed.

Lemma print_returns text (w : World Remote) :
  printable svc text = true -> print svc text w = (Return tt, w).
Proof. intros H. unfold print. now rewrite H. Qed.

Lemma print_raises text (w : World Remote) :
  printable svc text = false -> print svc text w = (Raise UnicodeEncodeError, w).
Proof. intros H. unfold print. now rewrite H. Qed.

Lemma any_documents_returns top_k (w : World Remote) :
  exists rows w', any_documents svc top_k w = (Return rows, w').
Proof. apply try_total. intros e w1. now exists [], w1. Qed.

(** The fallback returns when its first [print] does, and raises what
    that [print] raises, in the world it was called in. *)
Lemma search_fallback_returns query top_k (w : World Remote) :
  printable svc query = true ->
  exists rows w', search_fallback svc query top_k w = (Return rows, w').
Proof.
  intros Hp. unfold search_fallback.
  rewrite (bind_returns _ _ w tt w).
  - apply try_total. intros e w1. apply any_documents_returns.
  - apply print_returns. now rewrite printable_app, Hp.
Qed.

Lemma search_fallback_unprintable query top_k (w : World Remote) :
  printable svc query = false ->
  search_fallback svc query top_k w = (Raise UnicodeEncodeError, w).
Proof.
  intros Hp. unfold search_fallback.
  apply bind_raises, print_raises. now rewrite printable_app, Hp.
Qed.

(** A fallback that raised raises again when the handler of [search]
    calls it. *)
Lemma search_fallback_again query top_k (w : World Remote) :
  match search_fallback svc query top_k w with
  | (Return rows, w1) => (Return rows, w1)
  | (Raise _, w1) => search_fallback svc query top_k w1
  end = search_fallback svc query top_k w.
Proof.
  destruct (printable svc query) eqn:Hp.
  - destruct (search_fallback_returns query top_k w Hp) as (rows & w1 & H).
    now rewrite H.
  - now rewrite !search_fallback_unprintable.
Qed.

(** [search] returns for every behaviour of the embedding endpoint and
    of the database when the standard output can print the query. *)
Lemma search_returns query top_k (w : World Remote) :
  printable svc query = true ->
  exists rows w', search svc json_loads query top_k w = (Return rows, w').
Proof.
  intros Hp. apply try_total. intros e w1. now apply search_fallback_returns.
Qed.

End SearchTotal.

(** ** Failures on the read path *)

Section ReadPath.

Context {Remote : Type} (svc : Services Remote).
Variable json_loads : string -> option pyval.
Implicit Types w : World Remote.

(** The [ValueError] that [search] raises on a blank query is caught by
    its own handler. *)
Lemma blank_query_falls_back query top_k w :
  Str.blank query = true ->
  search svc json_loads query top_k w = search_fallback svc query top_k w.
Proof.
  intros Hb. unfold search, try_except. rewrite Hb. reflexivity.
Qed.


Lemma call_fst {A} (f : Remote -> outcome A * Remote) w :
  fst (call f w) = fst (f (services w)).
Proof. unfold call. now destruct (f (services w)). Qed.

(** What a failed database call makes of a guarded body: the handler's
    value. *)
Lemma guarded_failure {A} (q : query) (k : Response -> Py Remote A)
  (msg : string -> string) (fallback : A) w :
  backend_failure (execute svc q (services w)) ->
  fst (try_except
         (response <- call (execute svc q) ;;
          match error response with
          | Some err => raise (RuntimeError (msg err))
          | None => k response
          end)
         (fun _ => ret fallback) w) = Return fallback.
Proof.
  unfold backend_failure, try_except, bind, call.
  destruct (execute svc q (services w)) as [[response | e] s']; cbn.
  - destruct (error response) as [err |]; [reflexivity | congruence].
  - reflexivity.
Qed.


End ReadPath.

(** ** Failures on the write path *)

Section WritePath.

Context {Remote : Type} (svc : Services Remote).
Variable json_dumps : pyval -> outcome string.
Implicit Types w : World Remote.


End WritePath.

(** ** Rows keep their scores *)

Section Scores.

Variable json_loads : string -> option pyval.

Lemma dict_find_set_other key k v d :
  (k =? key)%string = false ->
  dict_find key (dict_set k v d) = dict_find key d.
Proof.
  intros Hk. induction d as [| [k' x] d IH]; cbn.
  - now rewrite Hk.
  - destruct (k' =? k)%string eqn:E; cbn.
    + apply String.eqb_eq in E. subst k'. now rewrite Hk.
    + destruct (k' =? key)%string; [reflexivity | exact IH].
Qed.

(** Parsing the metadata of a row touches no other field. *)
Lemma parse_metadata_other key row row' :
  ("metadata" =? key)%string = false ->
  parse_metadata json_loads row = Return row' ->
  py_get key PNone row' = py_get key PNone row.
Proof.
  intros Hk. unfold parse_metadata.
  destruct row as [| b | z | q | s | items | fields]; cbn; try discriminate.
  destruct (dict_get "metadata" PNone fields) as [| b | z | q | s | items | fs];
    try (intros [= <-]; reflexivity).
  destruct (json_loads s) as [parsed |]; intros [= <-]; [| reflexivity].
  cbn. unfold dict_get. now rewrite dict_find_set_other.
Qed.

Lemma parse_all_metadata_other key rows rows' :
  ("metadata" =? key)%string = false ->
  parse_all_metadata json_loads rows = Return rows' ->
  column key rows' = column key rows.
Proof.
  intros Hk. revert rows'.
  induction rows as [| row rest IH]; cbn; intros rows'.
  - now intros [= <-].
  - destruct (parse_metadata json_loads row) as [row1 |] eqn:E1; cbn; [| discriminate].
    destruct (parse_all_metadata json_loads rest) as [rest1 |]; cbn; [| discriminate].
    intros [= <-]. cbn. unfold column in IH.
    now rewrite (IH rest1 eq_refl), (parse_metadata_other key row row1 Hk E1).
Qed.

(** C6, as the code has it.  [search] takes a query and [top_k], which
    defaults to 8; a call that passes [score_threshold] is a [TypeError].
    [top_k] goes to the similarity statement as its row limit, and when
    the statement answers rows, [search] returns every one of them with
    the score the statement gave it: nothing is filtered by score. *)
Theorem search_has_no_threshold {Remote} (svc : Services Remote)
  query top_k q_emb (w w1 w2 : World Remote) response rows :
  (forall cutoff,
      bind_call search_signature [PStr query] [("score_threshold", cutoff)]
      = Raise unexpected_keyword)
  /\ bind_call search_signature [PStr query] []
     = Return [("query", PStr query); ("top_k", PInt 8)]
  /\ (Str.blank query = false ->
      _embed_single svc query w = (Return q_emb, w1) ->
      call (rpc svc "exec_sql" (search_params q_emb top_k)) w1 = (Return response, w2) ->
      error response = None ->
      rows_of response <> [] ->
      parse_all_metadata json_loads (rows_of response) = Return rows ->
      search svc json_loads query top_k w = (Return rows, w2)
      /\ column "score" rows = column "score" (rows_of response)).
Proof.
  split; [reflexivity | split; [reflexivity |]].
  intros Hb He Hr Herr Hne Hp. split.
  - unfold search, try_except. rewrite Hb.
    rewrite (bind_returns _ _ _ _ _ He), (bind_returns _ _ _ _ _ Hr), Herr.
    unfold lift, bind. rewrite Hp.
    destruct rows as [| first rest]; [| reflexivity].
    destruct (rows_of response) as [| r0 rs]; [congruence |].
    cbn in Hp.
    destruct (parse_metadata json_loads r0); cbn in Hp; [| discriminate].
    destruct (parse_all_metadata json_loads rs); cbn in Hp; discriminate.
  - now apply parse_all_metadata_other.
Qed.

End Scores.

(** ** The order of the lexical fallback *)

Section Fallback.

Context {Remote : Type} (svc : Services Remote).
Implicit Types w : World Remote.

Lemma narrow_from_nonempty suffix : forall i top_k w rows w',
  narrow_from svc i suffix top_k w = (Return (Some rows), w') -> rows <> [].
Proof.
  induction suffix as [| word rest IH]; intros i top_k w rows w';
    cbn -[Nat.ltb Str.join append].
  - discriminate.
  - destruct (3 <? i)%nat; [unfold ret; discriminate |].
    unfold bind.
    destruct (call _ w) as [[response | e] w1]; [| discriminate].
    destruct (rows_of response) as [| r0 rs] eqn:E.
    + apply IH.
    + destruct (print svc _ w1) as [[[] | e] w2]; [| discriminate].
      unfold ret. intros [= <- <-]. discriminate.
Qed.

Lemma project_heuristic_nonempty query top_k w rows w' :
  project_heuristic svc query top_k w = (Return (Some rows), w') -> rows <> [].
Proof.
  unfold project_heuristic.
  destruct (Str.contains "project" (Str.lower query)); [| discriminate].
  unfold bind, lift.
  destruct (index (Str.split_on "project" (Str.lower query)) 1) as [after |];
    [| discriminate].
  destruct (index (Str.split (Str.strip after)) 0) as [name |]; [| discriminate].
  destruct (negb (Str.is_empty name)); [| discriminate].
  destruct (call _ w) as [[response | e] w1]; [| discriminate].
  destruct (rows_of response) as [| r0 rs]; [discriminate |].
  intros [= <- <-]. discriminate.
Qed.


End Fallback.

(** ** Reading back what was written *)

Section RoundTrip.

Variable json_dumps : pyval -> outcome string.
Variable json_loads : string -> option pyval.

(** What a successful [upsert] did, whatever the services: it embedded the
    content, serialised the metadata, sent one row with the four fields,
    and returned the first row of an answer without error. *)
Lemma upsert_returns_inv {Remote} (svc : Services Remote)
  doc_id content metadata stored (w w' : World Remote) :
  upsert svc json_dumps doc_id content metadata w = (Return stored, w') ->
  exists embedding w1 stored_metadata response rest,
    _embed_single svc content w = (Return embedding, w1)
    /\ dump_if_dict json_dumps metadata = Return stored_metadata
    /\ call (execute svc (upsert_query doc_id content embedding stored_metadata)) w1
       = (Return response, w')
    /\ error response = None
    /\ rows_of response = stored :: rest.
Proof.
  unfold upsert. rewrite try_reraise.
  destruct (Str.blank content); [discriminate |].
  destruct (Str.is_empty doc_id); [discriminate |].
  unfold bind at 1.
  destruct (_embed_single svc content w) as [[embedding | e] w1]; [| discriminate].
  unfold lift, bind at 1.
  destruct (dump_if_dict json_dumps metadata) as [stored_metadata | e]; [| discriminate].
  unfold bind. fold (upsert_query doc_id content embedding stored_metadata).
  destruct (call (execute svc (upsert_query doc_id content embedding stored_metadata)) w1)
    as [[response | e] w2] eqn:Hcall; [| discriminate].
  destruct (error response) as [err |] eqn:Herr; [discriminate |].
  destruct (rows_of response) as [| first rest] eqn:Hrows; [discriminate |].
  intros [= <- <-].
  now exists embedding, w1, stored_metadata, response, rest.
Qed.

(** What [get_document] makes of an answer with rows, whatever the
    services: the first row, with its metadata parsed. *)
Lemma get_document_found {Remote} (svc : Services Remote)
  doc_id (w w' : World Remote) response fields rest :
  call (execute svc (get_query doc_id)) w = (Return response, w') ->
  error response = None ->
  rows_of response = PDict fields :: rest ->
  get_document svc json_loads doc_id w
  = (parse_metadata json_loads (PDict fields), w').
Proof.
  intros Hcall Herr Hrows.
  unfold get_document, try_except, bind. fold (get_query doc_id).
  rewrite Hcall, Herr, Hrows. unfold lift, parse_metadata. cbn.
  destruct (dict_get "metadata" PNone fields) as [| b | z | q | s | items | fs];
    try reflexivity.
  now destruct (json_loads s).
Qed.

Lemma selected_same_id id r :
  Mem.selected (get_query id) r = Mem.same_id id r.
Proof.
  unfold Mem.selected, Mem.same_id, Mem.doc_id_of. cbn.
  destruct (dict_find "doc_id" r) as [[| b | z | q | s | items | fs] |];
    try reflexivity.
  apply andb_true_r.
Qed.

(** After a put, the select by id finds the written row first. *)
Lemma select_after_put id r table :
  Mem.same_id id r = true ->
  exists others,
    List.filter (Mem.selected (get_query id)) (Mem.put id r table) = r :: others.
Proof.
  intros Hr. induction table as [| r0 table IH]; cbn [Mem.put List.filter].
  - rewrite selected_same_id, Hr. now exists [].
  - destruct (Mem.same_id id r0) eqn:E0; cbn [List.filter].
    + rewrite selected_same_id, Hr. eauto.
    + rewrite selected_same_id, E0. exact IH.
Qed.

(** The in-memory database reads its writes: after an upsert of one row
    that returned, the select by the id of the row answers that row
    first. *)
Lemma mem_reads_its_write doc_id content embedding metadata response
  (w w' : World Mem.state) :
  call (execute Mem.svc (upsert_query doc_id content embedding metadata)) w
  = (Return response, w') ->
  exists others w'',
    call (execute Mem.svc (get_query doc_id)) w'
    = (Return (mkResponse
                 (Some (PDict [("doc_id", PStr doc_id); ("content", PStr content);
                               ("embedding", embedding); ("metadata", metadata)]
                        :: others))
                 None None), w'').
Proof.
  unfold call. cbn [execute Mem.svc]. unfold Mem.execute at 1.
  destruct (Mem.db_failures (services w)) as [| n] eqn:Edb; [| discriminate].
  cbn -[Mem.put]. intros [= <- <-].
  cbn [services]. unfold Mem.execute.
  cbn [Mem.db_failures Mem.rows q_verb q_limit get_query eq_ documents table all_columns].
  match goal with
  | |- context [Mem.put doc_id ?r ?t] =>
      destruct (select_after_put doc_id r t) as (others & Hsel)
  end.
  { unfold Mem.same_id, Mem.doc_id_of. cbn. apply String.eqb_refl. }
  unfold Mem.answer. rewrite Hsel. cbn [map].
  eexists _, _. reflexivity.
Qed.

(** C5. On the in-memory services, for a document whose metadata is a
    dictionary that [json.dumps] serialises and [json.loads] reads back,
    [get_document] after a successful [upsert] of the document returns a
    document with the content and the metadata that were passed to
    [upsert]. *)
Theorem get_after_upsert doc_id content fields s stored (w w' : World Mem.state) :
  json_dumps (PDict fields) = Return s ->
  json_loads s = Some (PDict fields) ->
  upsert Mem.svc json_dumps doc_id content (PDict fields) w = (Return stored, w') ->
  exists document w'',
    get_document Mem.svc json_loads doc_id w' = (Return (PDict document), w'')
    /\ dict_find "content" document = Some (PStr content)
    /\ dict_find "metadata" document = Some (PDict fields).
Proof.
  intros Hd Hl Hu.
  destruct (upsert_returns_inv Mem.svc _ _ _ _ _ _ Hu)
    as (embedding & w1 & stored_metadata & response & rest & _ & Hdump & Hwrite & _ & _).
  cbn [dump_if_dict is_dict] in Hdump. rewrite Hd in Hdump. cbn in Hdump.
  injection Hdump as <-.
  destruct (mem_reads_its_write _ _ _ _ _ _ _ Hwrite) as (others & w'' & Hread).
  rewrite (get_document_found Mem.svc doc_id w' w'' _ _ others Hread eq_refl eq_refl).
  cbn. rewrite Hl.
  eexists _, _. repeat split.
Qed.

End RoundTrip.

(** ** Runs on the in-memory services *)

Example strip_example : Str.strip "  remote work " = "remote work".
Proof. reflexivity. Qed.

Example query_words_example :
  query_words_of "What is Project Apollo?" = ["what"; "is"; "project"; "apollo"].
Proof. reflexivity. Qed.

Example split_on_example :
  Str.split_on "project" "my project apollo project x" = ["my "; " apollo "; " x"].
Proof. reflexivity. Qed.

Example ilike_example :
  Mem.ilike_match "%remote%work%policy%" "Remote work policy allows 3 days per week"
  = true.
Proof. reflexivity. Qed.

(** The scenario of the specification: the similarity statement finds
    nothing and the first part of the fallback finds the document. *)
Example fallback_scenario :
  fst (search Mem.svc Json.loads "remote work policy" 8
         (Mem.world [doc "1" "Remote work policy allows 3 days per week"]))
  = Return [PDict (doc "1" "Remote work policy allows 3 days per week")].
Proof. vm_compute. reflexivity. Qed.

(** C1, on the code.  A batch of three documents of which the first has
    empty content: the embeddings of the two others are looked up at the
    positions of the documents in the batch, not in the list of contents,
    so "b" is written with the vector of the content of "c", "c" is not
    written, and the table holds one row instead of two. *)
Theorem upsert_batch_misaligned :
  let batch := [doc "a" EmptyString; doc "b" "x"; doc "c" "yy"] in
  let run := upsert_batch Mem.svc Json.dumps batch (Mem.world []) in
  fst run = Return [row "b" "x" (Mem.vector_of "yy")]
  /\ map PDict (Mem.rows (services (snd run))) = [row "b" "x" (Mem.vector_of "yy")]
  /\ fst (count_documents Mem.svc (snd run)) = Return (PInt 1).
Proof. vm_compute. repeat split. Qed.

(** With the empty document last, the positions agree and both documents
    are written with their own vectors. *)
Example upsert_batch_aligned :
  fst (upsert_batch Mem.svc Json.dumps [doc "b" "x"; doc "c" "yy"; doc "a" EmptyString]
         (Mem.world []))
  = Return [row "b" "x" (Mem.vector_of "x"); row "c" "yy" (Mem.vector_of "yy")].
Proof. vm_compute. reflexivity. Qed.

(** C3, on the code.  A blank query does not raise: the [ValueError] is
    caught by the handler of [search], which answers with the fallback.
    With a healthy database that is the empty list; when the first
    database call fails it is whatever documents the table holds. *)
Theorem blank_query_is_answered :
  fst (search Mem.svc Json.loads "   " 8 (Mem.world pets)) = Return []
  /\ fst (search Mem.svc Json.loads EmptyString 8 (Mem.world_failing pets 0 1))
     = Return (map PDict pets).
Proof. vm_compute. split; reflexivity. Qed.

(** C7, on the code.  The embedding endpoint fails twice and then
    answers.  [_embed_single] sleeps [_RETRY_DELAY] before each retry;
    [_embed_batch] sleeps [_RETRY_DELAY] times the number of the retry. *)
Theorem single_embedding_delay_is_constant :
  let w := Mem.world_failing [] 2 0 in
  fst (_embed_single Mem.svc "hello" w) = Return (PList (Mem.vector_of "hello"))
  /\ slept (snd (_embed_single Mem.svc "hello" w)) = [2; 2]
  /\ slept (snd (_embed_batch Mem.svc [PStr "hello"] w)) = [2; 4].
Proof. vm_compute. repeat split. Qed.

(** C9, on the code.  The query holds a character the ASCII standard
    output cannot encode.  The similarity statement finds nothing (or the
    embedding endpoint is down), [search] turns to the fallback, and the
    [print] that stands before the [try] of [search_fallback] raises:
    the exception reaches the caller of [search].  With a standard
    output that encodes the character the same calls return lists. *)
Theorem search_raises_what_print_raises :
  fst (search Mem.svc_ascii Json.loads cafe 8 (Mem.world pets)) = Raise UnicodeEncodeError
  /\ fst (search Mem.svc_ascii Json.loads cafe 8 (Mem.world_failing pets 3 0))
     = Raise UnicodeEncodeError
  /\ fst (search Mem.svc Json.loads cafe 8 (Mem.world pets)) = Return []
  /\ fst (search Mem.svc Json.loads cafe 8 (Mem.world_failing pets 3 0)) = Return [].
Proof. vm_compute. repeat split. Qed.

(** Both helpers give up at the third failure. *)
Example embedding_gives_up :
  let w := Mem.world_failing [] 5 0 in
  fst (_embed_single Mem.svc "hello" w)
  = Raise (ServiceError "embedding endpoint unavailable")
  /\ Mem.embed_failures (services (snd (_embed_single Mem.svc "hello" w))) = 2%nat
  /\ Mem.embed_failures (services (snd (_embed_batch Mem.svc [PStr "hello"] w))) = 2%nat.
Proof. vm_compute. repeat split. Qed.


(** A query with nothing after the word "project": the second part raises
    [IndexError], the third part, which would have found the second
    document, is not run, and the handler returns the first document. *)
Example project_without_name :
  fst (project_heuristic Mem.svc "my project" 1 (Mem.world pets)) = Raise IndexError
  /\ fst (stage3 Mem.svc "my project" 1 (Mem.world pets)) = Return [PDict (doc "2" "my dog")]
  /\ fst (search_fallback Mem.svc "my project" 1 (Mem.world pets))
     = Return [PDict (doc "1" "cats")].
Proof. vm_compute. repeat split. Qed.

(** C6, against the claim.  A call of [search] with [score_threshold] is
    rejected, and a row with a negative score is returned as it came. *)
Lemma score_threshold_rejected :
  bind_call search_signature [PStr "policy"] [("score_threshold", PFloat (1 # 2))]
  = Raise unexpected_keyword
  /\ fst (search Mem.svc Json.loads "policy" 8
            (Mem.world_answering [] (mkResponse (Some [scored "1" (-1 # 2)]) None None)))
     = Return [scored "1" (-1 # 2)].
Proof. vm_compute. split; reflexivity. Qed.


(** ** Instances of the conditional statements *)




Lemma search_has_no_threshold_witness :
  let answer := mkResponse (Some [scored "1" (-1 # 2); scored "2" (3 # 4)]) None None in
  let w := Mem.world_answering [] answer in
  let q_emb := PList (Mem.vector_of "policy") in
  let w1 := mkWorld (services w) [("policy", q_emb)] [] in
  _embed_single Mem.svc "policy" w = (Return q_emb, w1)
  /\ call (rpc Mem.svc "exec_sql" (search_params q_emb 1)) w1 = (Return answer, w1)
  /\ search Mem.svc Json.loads "policy" 1 w = (Return (rows_of answer), w1)
  /\ column "score" (rows_of answer) = [Return (PFloat (-1 # 2)); Return (PFloat (3 # 4))].
Proof.
  intros answer w q_emb w1.
  assert (He : _embed_single Mem.svc "policy" w = (Return q_emb, w1))
    by (vm_compute; reflexivity).
  assert (Hr : call (rpc Mem.svc "exec_sql" (search_params q_emb 1)) w1
               = (Return answer, w1)) by (vm_compute; reflexivity).
  assert (Hne : rows_of answer <> []) by discriminate.
  destruct (search_has_no_threshold Json.loads Mem.svc "policy" 1 q_emb w w1 w1
              answer (rows_of answer)) as (_ & _ & Hrows).
  destruct (Hrows eq_refl He Hr eq_refl Hne eq_refl) as (Hsearch & _).
  exact (conj He (conj Hr (conj Hsearch eq_refl))).
Defined.

Lemma get_after_upsert_witness :
  let embedding := PList (Mem.vector_of "Remote work policy") in
  let fields := [("doc_id", PStr "policy-1"); ("content", PStr "Remote work policy");
                 ("embedding", embedding); ("metadata", PStr handbook_json)] in
  let w' := mkWorld (Mem.mkState (pets ++ [fields]) 0 0 Mem.no_rows)
                    [("Remote work policy", embedding)] [] in
  Json.dumps handbook = Return handbook_json
  /\ Json.loads handbook_json = Some handbook
  /\ upsert Mem.svc Json.dumps "policy-1" "Remote work policy" handbook (Mem.world pets)
     = (Return (PDict fields), w')
  /\ exists document w'',
      get_document Mem.svc Json.loads "policy-1" w' = (Return (PDict document), w'')
      /\ dict_find "content" document = Some (PStr "Remote work policy")
      /\ dict_find "metadata" document = Some handbook.
Proof.
  intros embedding fields w'.
  assert (Hd : Json.dumps handbook = Return handbook_json) by (vm_compute; reflexivity).
  assert (Hl : Json.loads handbook_json = Some handbook) by (vm_compute; reflexivity).
  assert (Hu : upsert Mem.svc Json.dumps "policy-1" "Remote work policy" handbook
                 (Mem.world pets) = (Return (PDict fields), w'))
    by (vm_compute; reflexivity).
  exact (conj Hd (conj Hl (conj Hu
           (get_after_upsert Json.dumps Json.loads "policy-1" "Remote work policy"
              _ handbook_json (PDict fields) (Mem.world pets) w' Hd Hl Hu)))).
Defined.

(** * Further properties *)

(** ** The embedding helpers *)

Section Embedder.

Context {Remote : Type} (svc : Services Remote).
Implicit Types w : World Remote.

Lemma cache_find_remove key c :
  cache_find key (cache_remove key c) = None.
Proof.
  induction c as [| [k v] c IH]; cbn; [reflexivity |].
  destruct (k =? key)%string eqn:E; cbn; [exact IH | now rewrite E].
Qed.

Lemma cache_remove_shorter key c v :
  cache_find key c = Some v ->
  (S (List.length (cache_remove key c)) <= List.length c)%nat.
Proof.
  induction c as [| [k x] c IH]; cbn; [discriminate |].
  destruct (k =? key)%string.
  - intros _. clear IH. apply le_n_S.
    induction c as [| [k' x'] c IH]; cbn; [lia |].
    destruct (k' =? key)%string; cbn; lia.
  - intros H. cbn. apply le_n_S. now apply IH.
Qed.

(** An attempt of the retry loop is an attempt on the services. *)
Lemma single_attempt_world text w :
  (response_data <- call (embeddings_create svc EMBED_MODEL (PStr text)) ;;
   lift (index response_data 0)) w
  = (fst (attempt_single svc text (services w)),
     mkWorld (snd (attempt_single svc text (services w))) (lru w) (slept w)).
Proof.
  unfold bind, call, lift, attempt_single.
  now destruct (embeddings_create svc EMBED_MODEL (PStr text) (services w))
    as [[response_data | e] s'].
Qed.

Lemma batch_attempt_world valid_texts w :
  (response_data <- call (embeddings_create svc EMBED_MODEL (PList valid_texts)) ;;
   ret (PList response_data)) w
  = (fst (attempt_batch svc valid_texts (services w)),
     mkWorld (snd (attempt_batch svc valid_texts (services w))) (lru w) (slept w)).
Proof.
  unfold bind, call, ret, attempt_batch.
  now destruct (embeddings_create svc EMBED_MODEL (PList valid_texts) (services w))
    as [[response_data | e] s'].
Qed.

(** The retry loops leave the cache alone. *)
Lemma embed_single_attempts_lru left : forall text w,
  lru (snd (embed_single_attempts svc left text w)) = lru w.
Proof.
  induction left as [| left IH]; intros text w; [reflexivity |].
  cbn [embed_single_attempts]. unfold try_except.
  rewrite single_attempt_world.
  destruct (fst (attempt_single svc text (services w))) as [v | e]; [reflexivity |].
  destruct (_MAX_RETRIES - Z.of_nat left >=? _MAX_RETRIES); [reflexivity |].
  unfold bind, sleep. rewrite IH. reflexivity.
Qed.

Lemma embed_single_uncached_lru text w :
  lru (snd (embed_single_uncached svc text w)) = lru w.
Proof.
  unfold embed_single_uncached.
  destruct (Str.blank text); [reflexivity | apply embed_single_attempts_lru].
Qed.

(** X1. A text whose embedding was just returned is answered from the
    cache: the second call returns the same vector and reaches neither
    the embedding endpoint nor [time.sleep]. *)
Theorem embedding_cache_hit text w v w1 :
  _embed_single svc text w = (Return v, w1) ->
  _embed_single svc text w1
  = (Return v,
     mkWorld (services w1) ((text, v) :: cache_remove text (lru w1)) (slept w1)).
Proof.
  intros H.
  assert (Hfound : cache_find text (lru w1) = Some v).
  { unfold _embed_single, lru_cache in H.
    destruct (cache_find text (lru w)) as [v0 |].
    - injection H as <- <-. cbn. now rewrite String.eqb_refl.
    - destruct (embed_single_uncached svc text w) as [[v0 | e] w'];
        [| discriminate].
      injection H as <- <-. cbn. now rewrite String.eqb_refl. }
  unfold _embed_single, lru_cache. now rewrite Hfound.
Qed.

(** X2. The cache never grows beyond its hundred entries, whatever the
    call does (hit, miss, or exception). *)
Theorem embedding_cache_bounded text w :
  (List.length (lru w) <= lru_maxsize)%nat ->
  (List.length (lru (snd (_embed_single svc text w))) <= lru_maxsize)%nat.
Proof.
  intros Hlen. unfold _embed_single, lru_cache.
  destruct (cache_find text (lru w)) as [v |] eqn:Hfind.
  - cbn. apply cache_remove_shorter in Hfind. lia.
  - pose proof (embed_single_uncached_lru text w) as Hlru.
    destruct (embed_single_uncached svc text w) as [[v | e] w']; cbn [snd lru] in *.
    + apply firstn_le_length.
    + now rewrite Hlru.
Qed.

(** One turn of each retry loop. *)
Lemma embed_single_attempts_step left text w :
  embed_single_attempts svc (S left) text w
  = let s' := snd (attempt_single svc text (services w)) in
    match fst (attempt_single svc text (services w)) with
    | Return v => (Return v, mkWorld s' (lru w) (slept w))
    | Raise e =>
        if _MAX_RETRIES - Z.of_nat left >=? _MAX_RETRIES
        then (Raise e, mkWorld s' (lru w) (slept w))
        else embed_single_attempts svc left text
               (mkWorld s' (lru w) (slept w ++ [_RETRY_DELAY]))
    end.
Proof.
  cbn [embed_single_attempts]. unfold try_except.
  rewrite single_attempt_world.
  destruct (fst (attempt_single svc text (services w))) as [v | e]; [reflexivity |].
  now destruct (_MAX_RETRIES - Z.of_nat left >=? _MAX_RETRIES).
Qed.

Lemma embed_batch_attempts_step left valid w :
  embed_batch_attempts svc (S left) valid w
  = let s' := snd (attempt_batch svc valid (services w)) in
    match fst (attempt_batch svc valid (services w)) with
    | Return v => (Return v, mkWorld s' (lru w) (slept w))
    | Raise e =>
        if _MAX_RETRIES - Z.of_nat left >=? _MAX_RETRIES
        then (Raise e, mkWorld s' (lru w) (slept w))
        else embed_batch_attempts svc left valid
               (mkWorld s' (lru w)
                        (slept w ++ [_RETRY_DELAY * (_MAX_RETRIES - Z.of_nat left)]))
    end.
Proof.
  cbn [embed_batch_attempts]. unfold try_except.
  rewrite batch_attempt_world.
  destruct (fst (attempt_batch svc valid (services w))) as [v | e]; [reflexivity |].
  now destruct (_MAX_RETRIES - Z.of_nat left >=? _MAX_RETRIES).
Qed.



End Embedder.

(** ** Batches *)

Section Batches.

Context {Remote : Type} (svc : Services Remote).
Variable json_dumps : pyval -> outcome string.
Implicit Types w : World Remote.

Lemma valid_texts_of_strings texts :
  valid_texts_of (map PStr texts) = Return (map PStr (non_blank texts)).
Proof.
  induction texts as [| text rest IH]; [reflexivity |].
  cbn [map valid_texts_of py_strip obind non_blank List.filter].
  rewrite IH. cbn [obind]. unfold Str.blank.
  fold (non_blank rest).
  now destruct (Str.is_empty (Str.strip text)).
Qed.

(** X5. [_embed_batch] sends the endpoint exactly the texts that are not
    blank, in their order; a list without any such text is answered
    with the empty list and no call.  The vectors therefore number the
    non-blank texts, not the texts. *)
Theorem embed_batch_skips_blank texts w :
  _embed_batch svc (map PStr texts) w
  = match non_blank texts with
    | [] => (Return (PList []), w)
    | valid => embed_batch_attempts svc (Z.to_nat _MAX_RETRIES) (map PStr valid) w
    end.
Proof.
  unfold _embed_batch.
  destruct texts as [| text rest]; [reflexivity |].
  cbn [map]. unfold bind, lift.
  change (PStr text :: map PStr rest) with (map PStr (text :: rest)).
  rewrite valid_texts_of_strings.
  now destruct (non_blank (text :: rest)).
Qed.

Lemma slices_of_spec {A} size : (0 < size)%nat ->
  forall bound (l : list A),
    (List.length l <= bound)%nat ->
    List.concat (slices_of bound size l) = l
    /\ Forall (fun batch => (0 < List.length batch <= size)%nat)
              (slices_of bound size l).
Proof.
  intros Hsize. induction bound as [| bound IH]; intros l Hlen.
  - destruct l; [now split | cbn in Hlen; lia].
  - destruct l as [| x l']; [now split |].
    cbn [slices_of].
    destruct (IH (skipn size (x :: l'))) as [Hcat Hall].
    { rewrite length_skipn. cbn [List.length] in *. lia. }
    split.
    + cbn [List.concat]. rewrite Hcat. apply firstn_skipn.
    + constructor; [| exact Hall].
      rewrite length_firstn. cbn [List.length]. lia.
Qed.

(** X6. [upsert_batch] cuts the documents into consecutive batches that
    together are the list it was given, in order; every batch holds at
    least one and at most twenty documents. *)
Theorem batches_partition (docs : list dict) :
  List.concat (slices _BATCH_SIZE docs) = docs
  /\ Forall (fun batch => (0 < List.length batch <= _BATCH_SIZE)%nat)
            (slices _BATCH_SIZE docs).
Proof.
  unfold slices. apply slices_of_spec; [unfold _BATCH_SIZE; lia | lia].
Qed.

Lemma slices_of_forall (P : dict -> Prop) size : forall bound (l : list dict),
  Forall P l -> Forall (Forall P) (slices_of bound size l).
Proof.
  induction bound as [| bound IH]; intros l Hl; [constructor |].
  destruct l as [| x l']; [constructor |].
  cbn [slices_of].
  rewrite <- (firstn_skipn size (x :: l')) in Hl.
  apply Forall_app in Hl as [Hfirst Hrest].
  constructor; [exact Hfirst | now apply IH].
Qed.

Lemma contents_of_none (batch : list dict) :
  Forall (fun doc => has_content doc = false) batch -> contents_of batch = [].
Proof.
  intros H. unfold contents_of.
  induction H as [| doc rest Hdoc _ IH]; [reflexivity |].
  cbn [List.filter]. now rewrite Hdoc.
Qed.

Lemma upsert_batches_none batches : forall results w,
  Forall (Forall (fun doc => has_content doc = false)) batches ->
  upsert_batches svc json_dumps batches results w = (Return results, w).
Proof.
  induction batches as [| batch rest IH]; intros results w H; [reflexivity |].
  inversion H as [| ? ? Hbatch Hrest]; subst.
  cbn [upsert_batches]. rewrite (contents_of_none batch Hbatch).
  now apply IH.
Qed.

Lemma upsert_batch_skips_all docs w :
  Forall (fun doc => has_content doc = false) docs ->
  upsert_batch svc json_dumps docs w = (Return [], w).
Proof.
  intros H. unfold upsert_batch.
  destruct docs as [| doc rest]; [reflexivity |].
  rewrite try_reraise. apply upsert_batches_none.
  unfold slices. now apply slices_of_forall.
Qed.

(** X7. A batch in which no document has content (the key is missing, or
    its value is empty or false) is skipped whole: [upsert_batch] returns
    the empty list without raising, and calls neither the embedding
    endpoint nor the database. *)
Theorem upsert_batch_without_content docs w :
  Forall (fun doc => has_content doc = false) docs ->
  upsert_batch svc json_dumps docs w = (Return [], w).
Proof. apply upsert_batch_skips_all. Qed.

End Batches.

(** ** The parts of the lexical fallback *)

Section FallbackParts.

Context {Remote : Type} (svc : Services Remote).
Implicit Types w : World Remote.

Lemma narrow_from_patterns suffix : forall i top_k w,
  narrow_from svc i suffix top_k w
  = first_match svc
      (map (fun s => "%" ++ Str.join "%" s ++ "%") (firstn (4 - i) (suffixes suffix)))
      top_k w.
Proof.
  induction suffix as [| word rest IH]; intros i top_k w.
  - cbn [narrow_from suffixes]. now rewrite firstn_nil.
  - cbn -[Nat.ltb Str.join append Nat.sub].
    destruct (3 <? i)%nat eqn:E.
    + apply Nat.ltb_lt in E.
      replace (4 - i)%nat with 0%nat by lia. reflexivity.
    + apply Nat.ltb_ge in E.
      replace (4 - i)%nat with (S (3 - i)) by lia.
      cbn -[Str.join append Nat.sub]. unfold bind.
      destruct (call _ w) as [[response | e] w1]; [| reflexivity].
      destruct (rows_of response) as [| r0 rs]; [| reflexivity].
      rewrite IH. now replace (4 - S i)%nat with (3 - i)%nat by lia.
Qed.

(** X8. The first part of the fallback asks the database at most four
    times: for the pattern of all the query words, then of the words
    without the first, and so on, stopping at the first pattern that
    finds rows; words beyond the fourth suffix are never tried alone. *)
Theorem narrowing_tries_four_suffixes query top_k w :
  narrow_from svc 0 (query_words_of query) top_k w
  = first_match svc (suffix_patterns (query_words_of query)) top_k w
  /\ (List.length (suffix_patterns (query_words_of query)) <= 4)%nat.
Proof.
  split.
  - apply narrow_from_patterns.
  - unfold suffix_patterns. rewrite length_map. apply firstn_le_length.
Qed.

(** The loop, as long as the results are fewer than [top_k]. *)
Lemma filter_documents_firstn terms top_k docs : forall results,
  Forall (fun doc => readable doc = true) docs ->
  (List.length results < Z.to_nat top_k)%nat ->
  filter_documents terms top_k docs results
  = Return (firstn (Z.to_nat top_k) (results ++ List.filter (mentions terms) docs)).
Proof.
  induction docs as [| doc rest IH]; intros results Hall Hlen.
  - cbn. rewrite app_nil_r. rewrite firstn_all2; [reflexivity | lia].
  - inversion Hall as [| ? ? Hdoc Hrest]; subst.
    cbn [filter_documents List.filter].
    unfold readable in Hdoc. unfold mentions at 1.
    destruct doc as [| b | z | q | s | items | fields]; try discriminate.
    cbn [py_get obind].
    destruct (dict_get "content" (PStr EmptyString) fields)
      as [| b | z | q | content | items | fs]; try discriminate.
    cbn [py_lower obind].
    destruct (existsb (fun term => Str.contains term (Str.lower content)) terms).
    + destruct (Z.of_nat (List.length (results ++ [PDict fields])) >=? top_k) eqn:E.
      * rewrite length_app in E. cbn [List.length] in E.
        assert (Hk : List.length (results ++ [PDict fields]) = Z.to_nat top_k).
        { rewrite length_app. cbn [List.length]. apply Z.geb_le in E. lia. }
        change (PDict fields :: List.filter (mentions terms) rest)
          with ([PDict fields] ++ List.filter (mentions terms) rest)%list.
        rewrite app_assoc, <- Hk, firstn_app, firstn_all, Nat.sub_diag, firstn_0.
        now rewrite app_nil_r.
      * rewrite IH; [| exact Hrest |].
        -- now rewrite <- app_assoc.
        -- rewrite length_app in *. cbn [List.length] in *.
           rewrite Z.geb_leb in E. apply Z.leb_gt in E. lia.
    + now apply IH.
Qed.

(** The loop for a [top_k] that is not positive: it stops at the first
    match. *)
Lemma filter_documents_short terms top_k docs :
  top_k <= 0 ->
  Forall (fun doc => readable doc = true) docs ->
  exists results,
    filter_documents terms top_k docs [] = Return results
    /\ (List.length results <= 1)%nat.
Proof.
  intros Hk Hall. induction Hall as [| doc rest Hdoc _ IH].
  - exists []. split; [reflexivity | cbn; lia].
  - cbn [filter_documents].
    unfold readable in Hdoc.
    destruct doc as [| b | z | q | s | items | fields]; try discriminate.
    cbn [py_get obind].
    destruct (dict_get "content" (PStr EmptyString) fields)
      as [| b | z | q | content | items | fs]; try discriminate.
    cbn [py_lower obind].
    destruct (existsb _ terms); [| exact IH].
    cbn [app List.length].
    destruct (Z.of_nat 1 >=? top_k) eqn:E.
    + exists [PDict fields]. split; [reflexivity | cbn; lia].
    + rewrite Z.geb_leb in E. apply Z.leb_gt in E. lia.
Qed.

(** X9. When the rows the database hands over are readable (dictionaries
    whose content, if any, is a string), the client-side part of the
    fallback returns the first [top_k] of them that mention a query
    term, in the order of the database, and nothing for a [top_k] that is
    not positive. *)
Theorem client_side_filter_result query top_k w response s' :
  execute svc (limit 100 (documents all_columns)) (services w) = (Return response, s') ->
  Forall (fun doc => readable doc = true) (rows_of response) ->
  client_side_filter svc query top_k w
  = (Return (firstn (Z.to_nat top_k)
               (List.filter (mentions (query_words_of query)) (rows_of response))),
     mkWorld s' (lru w) (slept w)).
Proof.
  intros Hcall Hall.
  unfold client_side_filter, bind, call. rewrite Hcall.
  destruct (rows_of response) as [| r0 rs] eqn:Hrows.
  - cbn. now rewrite firstn_nil.
  - unfold lift, ret.
    destruct (Z.leb_spec top_k 0) as [Hk | Hk].
    + destruct (filter_documents_short (query_words_of query) top_k (r0 :: rs) Hk Hall)
        as (results & -> & Hlen).
      replace (Z.to_nat top_k) with 0%nat by lia. rewrite firstn_0.
      f_equal. f_equal. unfold slice_to.
      destruct (top_k <? 0) eqn:E.
      * apply Z.ltb_lt in E.
        replace (Z.to_nat (Z.of_nat (List.length results) + top_k)) with 0%nat by lia.
        apply firstn_0.
      * apply Z.ltb_ge in E. replace top_k with 0 by lia. apply firstn_0.
    + rewrite (filter_documents_firstn (query_words_of query) top_k (r0 :: rs) [] Hall)
        by (cbn; lia).
      cbn [app]. f_equal. f_equal. unfold slice_to.
      destruct (top_k <? 0) eqn:E; [apply Z.ltb_lt in E; lia |].
      rewrite firstn_firstn. now rewrite Nat.min_id.
Qed.

End FallbackParts.

(** ** Bulk delete and the set-up check *)

Section Maintenance.

Context {Remote : Type} (svc : Services Remote).
Implicit Types w : World Remote.


Lemma append_assoc (a b c : string) : ((a ++ b) ++ c = a ++ (b ++ c))%string.
Proof. induction a as [| ch a IH]; cbn; [reflexivity | now rewrite IH]. Qed.

Lemma doc_ids_str_split x y rest :
  doc_ids_str ((x ++ "', '" ++ y) :: rest) = doc_ids_str (x :: y :: rest).
Proof.
  unfold doc_ids_str, quoted_id. cbn [map Str.join].
  destruct (map (fun doc_id => "'" ++ doc_id ++ "'") rest) as [| q qs];
    repeat rewrite append_assoc; reflexivity.
Qed.

(** X11. [delete_batch] pastes each id between single quotes without
    escaping it.  An id that contains [', '] therefore reaches the
    database as two ids: the call sends the same statement, and has the
    same outcome, as the call with the id cut in two at that place. *)
Theorem delete_batch_does_not_escape x y rest w :
  delete_batch_sql ((x ++ "', '" ++ y) :: rest) = delete_batch_sql (x :: y :: rest)
  /\ delete_batch svc ((x ++ "', '" ++ y) :: rest) w
     = delete_batch svc (x :: y :: rest) w.
Proof.
  assert (Hsql : delete_batch_sql ((x ++ "', '" ++ y) :: rest)
                 = delete_batch_sql (x :: y :: rest)).
  { unfold delete_batch_sql. now rewrite doc_ids_str_split. }
  split; [exact Hsql |].
  unfold delete_batch, delete_batch_params. now rewrite Hsql.
Qed.


End Maintenance.

(** ** Deleting on the in-memory services *)

Section MemDelete.

Variable json_loads : string -> option pyval.

Lemma selected_delete_same_id id r :
  Mem.selected (delete_query id) r = Mem.same_id id r.
Proof.
  unfold Mem.selected, Mem.same_id, Mem.doc_id_of. cbn.
  destruct (dict_find "doc_id" r) as [[| b | z | q | s | items | fs] |];
    try reflexivity.
  apply andb_true_r.
Qed.

Lemma filter_same_id_gone id (table : list dict) :
  List.filter (Mem.same_id id)
    (List.filter (fun r => negb (Mem.same_id id r)) table) = [].
Proof.
  induction table as [| r table IH]; [reflexivity |].
  cbn [List.filter]. destruct (Mem.same_id id r) eqn:E; cbn [negb List.filter].
  - exact IH.
  - now rewrite E.
Qed.

Lemma filter_ext_same_id (f : dict -> bool) id (table : list dict) :
  (forall r, f r = Mem.same_id id r) ->
  List.filter f table = List.filter (Mem.same_id id) table.
Proof. intros H. apply filter_ext. exact H. Qed.

(** X13. On the in-memory services with the database up, [delete]
    returns [True] exactly when a row had the id, and removes every such
    row: a [get_document] of the id that follows returns [None], and a
    second [delete] returns [False] without error. *)
Theorem delete_then_absent doc_id (w : World Mem.state) :
  Mem.db_failures (services w) = 0%nat ->
  let after := snd (delete Mem.svc doc_id w) in
  fst (delete Mem.svc doc_id w)
  = Return (existsb (Mem.same_id doc_id) (Mem.rows (services w)))
  /\ Mem.rows (services after)
     = List.filter (fun r => negb (Mem.same_id doc_id r)) (Mem.rows (services w))
  /\ fst (get_document Mem.svc json_loads doc_id after) = Return PNone
  /\ fst (delete Mem.svc doc_id after) = Return false.
Proof.
  intros Hup after.
  assert (Hdel : delete Mem.svc doc_id w
    = (Return (existsb (Mem.same_id doc_id) (Mem.rows (services w))),
       mkWorld (Mem.mkState
                  (List.filter (fun r => negb (Mem.same_id doc_id r)) (Mem.rows (services w)))
                  (Mem.embed_failures (services w)) 0 (Mem.similarity (services w)))
               (lru w) (slept w))).
  { unfold delete, try_except, bind, call. fold (delete_query doc_id).
    cbn [execute Mem.svc]. unfold Mem.execute. rewrite Hup.
    cbn [q_verb delete_query eq_ documents table]. unfold Mem.answer.
    rewrite (filter_ext_same_id _ doc_id _ (selected_delete_same_id doc_id)).
    rewrite (filter_ext (fun r => negb (Mem.selected (delete_query doc_id) r))
                        (fun r => negb (Mem.same_id doc_id r)))
      by (intros r; now rewrite selected_delete_same_id).
    rewrite Hup. cbn [data error ret].
    rewrite length_map. f_equal. f_equal.
    induction (Mem.rows (services w)) as [| r table IH]; [reflexivity |].
    cbn [List.filter existsb].
    destruct (Mem.same_id doc_id r); [reflexivity | exact IH]. }
  subst after. rewrite Hdel. cbn [fst snd services Mem.rows].
  repeat split.
  - unfold get_document, try_except, bind, call. fold (get_query doc_id).
    cbn [execute Mem.svc services]. unfold Mem.execute.
    cbn [Mem.db_failures Mem.rows q_verb q_limit get_query eq_ documents table all_columns].
    unfold Mem.answer.
    rewrite (filter_ext_same_id _ doc_id _ (selected_same_id doc_id)).
    rewrite filter_same_id_gone. reflexivity.
  - unfold delete, try_except, bind, call. fold (delete_query doc_id).
    cbn [execute Mem.svc services]. unfold Mem.execute.
    cbn [Mem.db_failures Mem.rows q_verb delete_query eq_ documents table].
    unfold Mem.answer.
    rewrite (filter_ext_same_id _ doc_id _ (selected_delete_same_id doc_id)).
    rewrite filter_same_id_gone. reflexivity.
Qed.

End MemDelete.

(** ** The agent tools *)

Section ToolFacts.

Context {Remote : Type} (svc : Services Remote).
Variable json_dumps : pyval -> outcome string.
Variable json_loads : string -> option pyval.
Variable str_exn : exn -> string.
Implicit Types w : World Remote.

Lemma delete_returns doc_id w :
  exists found w', delete svc doc_id w = (Return found, w').
Proof. apply try_total. intros e w1. now exists false, w1. Qed.

(** What the [print] at the head of a tool does: the literal text around
    the string of the caller always prints. *)
Lemma printable_after prefix text :
  printable svc prefix = true ->
  printable svc (prefix ++ text) = printable svc text.
Proof. intros H. now rewrite printable_app, H. Qed.

Lemma print_after_returns {A} prefix text (k : unit -> Py Remote A) w :
  printable svc prefix = true ->
  printable svc text = true ->
  bind (print svc (prefix ++ text)) k w = k tt w.
Proof.
  intros Hl Ht. apply bind_returns, print_returns.
  now rewrite printable_after.
Qed.

Lemma print_after_raises {A} prefix text (k : unit -> Py Remote A) w :
  printable svc prefix = true ->
  printable svc text = false ->
  bind (print svc (prefix ++ text)) k w = (Raise UnicodeEncodeError, w).
Proof.
  intros Hl Ht. apply bind_raises, print_raises.
  now rewrite printable_after.
Qed.




(** The text [supabase_upsert] prints holds the id and the first fifty
    characters of the content. *)
Lemma upsert_banner_printable doc_id content :
  printable svc ("[supabase_upsert] Storing document: id=" ++ doc_id
                 ++ ", content=" ++ substring 0 50 content ++ "...")
  = printable svc doc_id && printable svc (substring 0 50 content).
Proof.
  rewrite printable_after by reflexivity.
  rewrite printable_app, printable_after by reflexivity.
  rewrite printable_app. now rewrite andb_true_r.
Qed.

(** X17. [supabase_upsert] never raises: it returns the stored row under
    status "success", or the text of the exception under status "error".
    Once the [print] of the id and of the head of the content has
    returned, blank content is reported that way without any call to the
    services, and so is an empty id with content that is not blank; when
    the standard output cannot print them, the [UnicodeEncodeError] is
    what is reported. *)
Theorem supabase_upsert_reports doc_id content metadata w :
  let shown := printable svc doc_id && printable svc (substring 0 50 content) in
  (exists result w',
      supabase_upsert svc json_dumps str_exn doc_id content metadata w
      = (Return result, w')
      /\ ((exists stored, result = status "success" [("row", stored)])
          \/ (exists e, result = failed str_exn e)))
  /\ (shown = true -> Str.blank content = true ->
      supabase_upsert svc json_dumps str_exn doc_id content metadata w
      = (Return (failed str_exn (ValueError "Document content cannot be empty")), w))
  /\ (shown = true -> Str.blank content = false -> Str.is_empty doc_id = true ->
      supabase_upsert svc json_dumps str_exn doc_id content metadata w
      = (Return (failed str_exn (ValueError "Document ID is required")), w))
  /\ (shown = false ->
      supabase_upsert svc json_dumps str_exn doc_id content metadata w
      = (Return (failed str_exn UnicodeEncodeError), w)).
Proof.
  intros shown. subst shown. rewrite <- upsert_banner_printable.
  unfold supabase_upsert, try_except.
  destruct (printable svc _) eqn:Hp.
  - rewrite (bind_returns _ _ _ _ _ (print_returns svc _ w Hp)).
    split; [| split; [| split]].
    + unfold bind.
      destruct (upsert svc json_dumps doc_id content metadata w) as [[stored | e] w'].
      * eexists _, _. split; [reflexivity |]. left. now exists stored.
      * eexists _, _. split; [reflexivity |]. right. now exists e.
    + intros _ Hb. unfold try_except, bind, upsert. now rewrite Hb.
    + intros _ Hb Hid. unfold try_except, bind, upsert. now rewrite Hb, Hid.
    + discriminate.
  - rewrite (bind_raises _ _ _ _ _ (print_raises svc _ w Hp)).
    split; [| split; [| split]]; try discriminate; [| reflexivity].
    eexists _, _. split; [reflexivity |]. right. now exists UnicodeEncodeError.
Qed.

(** X18. For a batch in which no document has content,
    [supabase_upsert_batch] reports success with a count of 0 and the
    message "Successfully processed 0 documents", and calls no
    service. *)
Theorem supabase_upsert_batch_without_content docs w :
  Forall (fun doc => has_content doc = false) docs ->
  supabase_upsert_batch svc json_dumps str_exn docs w
  = (Return (status "success"
               [("message", PStr "Successfully processed 0 documents");
                ("count", PInt 0)]), w).
Proof.
  intros H. unfold supabase_upsert_batch, try_except, bind.
  now rewrite (upsert_batch_skips_all svc json_dumps docs w H).
Qed.

End ToolFacts.

(** ** The memory service *)

Section MemoryFacts.

Context {Remote : Type} (svc : Services Remote).
Variable json_dumps : pyval -> outcome string.
Variable uuid4 : Remote -> string * Remote.
Variable now_isoformat : Remote -> string * Remote.
Implicit Types w : World Remote.

Lemma sessions_find_set_same key records ss :
  sessions_find key (sessions_set key records ss) = Some records.
Proof.
  induction ss as [| [k old] ss IH]; cbn.
  - now rewrite String.eqb_refl.
  - destruct (k =? key)%string eqn:E; cbn; now rewrite E.
Qed.

Lemma sessions_find_set_other key key' records ss :
  (key =? key')%string = false ->
  sessions_find key' (sessions_set key records ss) = sessions_find key' ss.
Proof.
  intros Hk. induction ss as [| [k old] ss IH]; cbn.
  - now rewrite Hk.
  - destruct (k =? key)%string eqn:E; cbn.
    + apply String.eqb_eq in E. subst k. now rewrite Hk.
    + destruct (k =? key')%string; [reflexivity | exact IH].
Qed.

Lemma find_last (f : MemoryRecord -> bool) records record :
  f record = true ->
  find f (records ++ [record])
  = match find f records with Some r => Some r | None => Some record end.
Proof.
  intros Hf. induction records as [| r records IH]; cbn.
  - now rewrite Hf.
  - destruct (f r); [reflexivity | exact IH].
Qed.

Lemma find_filtered_out (f : MemoryRecord -> bool) records :
  find f (List.filter (fun r => negb (f r)) records) = None.
Proof.
  induction records as [| r records IH]; [reflexivity |].
  cbn [List.filter]. destruct (f r) eqn:E; cbn [negb find]; [exact IH |].
  now rewrite E.
Qed.

(** What [create] leaves in the sessions, and what it returns. *)
Lemma memory_create_inv record ss w :
  let key := session_key (rec_app_id record) (rec_user_id record)
                         (rec_session_id record) in
  let r := filed uuid4 now_isoformat record w in
  snd (fst (memory_create svc json_dumps uuid4 now_isoformat record ss w))
  = sessions_set key
      (memory_list (rec_app_id record) (rec_user_id record) (rec_session_id record) ss
       ++ [r]) ss
  /\ fst (fst (memory_create svc json_dumps uuid4 now_isoformat record ss w))
     = if truthy (rec_metadata record) && negb (is_dict (rec_metadata record))
       then Raise AttributeError else Return r.
Proof.
  unfold memory_create, filed, memory_list.
  destruct (if Str.is_empty (rec_id record) then host uuid4 w else (rec_id record, w))
    as [id w1].
  destruct (if Str.is_empty (rec_timestamp record) then host now_isoformat w1
            else (rec_timestamp record, w1)) as [timestamp w2].
  cbn [rec_metadata rec_id rec_text].
  destruct (truthy (rec_metadata record)) eqn:Ht; [| now split].
  destruct (rec_metadata record) as [| b | z | q | s | items | fields];
    try (now split).
  cbn [is_dict negb andb].
  destruct (truthy (dict_get "store_in_vector_db" (PBool false) fields));
    [| now split].
  destruct (try_except _ _ w2) as [o w3]. now split.
Qed.

(** X19. [create] files the record under its session in every case: when
    the record is not flagged for the vector store, when the [upsert]
    into the vector store fails (the exception is swallowed), and even
    when [create] itself raises because the metadata is not a dictionary.
    It returns the filed record unless the metadata is a true value that
    is not a dictionary. *)
Theorem create_always_files record ss w :
  let app := rec_app_id record in
  let user := rec_user_id record in
  let session := rec_session_id record in
  let r := filed uuid4 now_isoformat record w in
  let run := memory_create svc json_dumps uuid4 now_isoformat record ss w in
  memory_list app user session (snd (fst run))
  = (memory_list app user session ss ++ [r])%list
  /\ rec_text r = rec_text record
  /\ (truthy (rec_metadata record) = false \/ is_dict (rec_metadata record) = true ->
      fst (fst run) = Return r)
  /\ (truthy (rec_metadata record) = true -> is_dict (rec_metadata record) = false ->
      fst (fst run) = Raise AttributeError).
Proof.
  intros app user session r run.
  destruct (memory_create_inv record ss w) as [Hss Hout].
  fold app user session r run in Hss, Hout.
  repeat split.
  - rewrite Hss. unfold memory_list at 1. now rewrite sessions_find_set_same.
  - unfold r, filed.
    destruct (if Str.is_empty (rec_id record) then host uuid4 w else (rec_id record, w))
      as [id w1].
    now destruct (if Str.is_empty (rec_timestamp record) then host now_isoformat w1
                  else (rec_timestamp record, w1)).
  - intros [Ht | Hd]; rewrite Hout.
    + now rewrite Ht.
    + rewrite Hd. cbn. now rewrite andb_false_r.
  - intros Ht Hd. rewrite Hout, Ht, Hd. reflexivity.
Qed.

(** X20. After [create], [get] with the id of the filed record finds a
    record with that id in the session: the filed record itself when no
    earlier record of the session had the id, the earliest such record
    otherwise. *)
Theorem get_after_create record ss w :
  let app := rec_app_id record in
  let user := rec_user_id record in
  let session := rec_session_id record in
  let r := filed uuid4 now_isoformat record w in
  let ss' := snd (fst (memory_create svc json_dumps uuid4 now_isoformat record ss w)) in
  memory_get app user session (rec_id r) ss'
  = match memory_get app user session (rec_id r) ss with
    | Some earlier => Some earlier
    | None => Some r
    end.
Proof.
  intros app user session r ss'.
  destruct (memory_create_inv record ss w) as [Hss _].
  fold app user session r ss' in Hss.
  unfold memory_get at 1. rewrite Hss, sessions_find_set_same.
  rewrite find_last by apply String.eqb_refl.
  unfold memory_get, memory_list.
  now destruct (sessions_find (session_key app user session) ss).
Qed.

(** X21. [delete] removes every record with the id from the session, so
    that [get] no longer finds it, keeps the other records of the session
    in order, leaves every other session as it was, and returns [True]
    whether or not anything was removed.  [clear] empties the session in
    the same way. *)
Theorem memory_delete_removes app user session record_id ss :
  let ss' := snd (memory_delete app user session record_id ss) in
  fst (memory_delete app user session record_id ss) = true
  /\ memory_get app user session record_id ss' = None
  /\ memory_list app user session ss'
     = List.filter (fun r => negb (rec_id r =? record_id)%string)
                   (memory_list app user session ss)
  /\ memory_list app user session (snd (memory_clear app user session ss)) = []
  /\ (forall app' user' session',
         session_key app user session <> session_key app' user' session' ->
         memory_list app' user' session' ss' = memory_list app' user' session' ss
         /\ memory_list app' user' session' (snd (memory_clear app user session ss))
            = memory_list app' user' session' ss).
Proof.
  intros ss'. subst ss'.
  unfold memory_delete, memory_clear, memory_get, memory_list.
  destruct (sessions_find (session_key app user session) ss) as [records |] eqn:Hfind;
    cbn [fst snd].
  - rewrite !sessions_find_set_same.
    split; [reflexivity |]. split; [apply find_filtered_out |].
    split; [reflexivity |]. split; [reflexivity |].
    intros app' user' session' Hne.
    apply String.eqb_neq in Hne.
    now rewrite !sessions_find_set_other by exact Hne.
  - rewrite Hfind. repeat split.
Qed.

Lemma colon_split a : forall a' r r',
  colon_free a = true -> colon_free a' = true ->
  (a ++ String ":" r = a' ++ String ":" r')%string -> a = a' /\ r = r'.
Proof.
  induction a as [| c a IH]; intros [| c' a'] r r' Ha Ha' H; cbn in *.
  - injection H as ->. now split.
  - injection H as <- _. cbn in Ha'. discriminate.
  - injection H as -> _. cbn in Ha. discriminate.
  - injection H as -> H.
    apply andb_true_iff in Ha as [_ Ha]. apply andb_true_iff in Ha' as [_ Ha'].
    destruct (IH a' r r' Ha Ha' H) as [-> ->]. now split.
Qed.

(** X22. The session key joins the three ids with colons.  A colon inside
    an id moves the boundary: the sessions of app [a:b], user [u] and of
    app [a], user [b:u] share one key and so one list of records.  When
    the app and user ids hold no colon, different sessions have different
    keys. *)
Theorem session_keys app user session app' user' session' b ss :
  session_key (app ++ ":" ++ b) user session = session_key app (b ++ ":" ++ user) session
  /\ memory_list (app ++ ":" ++ b) user session ss
     = memory_list app (b ++ ":" ++ user) session ss
  /\ (colon_free app = true -> colon_free user = true ->
      colon_free app' = true -> colon_free user' = true ->
      session_key app user session = session_key app' user' session' ->
      app = app' /\ user = user' /\ session = session').
Proof.
  assert (Hkey : session_key (app ++ ":" ++ b) user session
                 = session_key app (b ++ ":" ++ user) session).
  { unfold session_key. now rewrite !append_assoc. }
  split; [exact Hkey |]. split.
  - unfold memory_list. now rewrite Hkey.
  - intros Ha Hu Ha' Hu' H. unfold session_key in H. cbn [append] in H.
    destruct (colon_split _ _ _ _ Ha Ha' H) as [-> H1].
    destruct (colon_split _ _ _ _ Hu Hu' H1) as [-> ->].
    now repeat split.
Qed.

End MemoryFacts.

(** ** A batch of complete documents on the in-memory services *)

Section FullBatch.

Variable json_dumps : pyval -> outcome string.

Let aligned (doc : dict) (r : pyval) : Prop := aligned_row json_dumps doc = Some r.
Let vec (content : string) : pyval := PList (Mem.vector_of content).
Let healthy (w : World Mem.state) : Prop :=
  Mem.embed_failures (services w) = 0%nat /\ Mem.db_failures (services w) = 0%nat.

Lemma aligned_inv doc r :
  aligned doc r ->
  exists id metadata,
    dict_find "doc_id" doc = Some (PStr id)
    /\ dict_find "content" doc = Some (PStr (text_of doc))
    /\ Str.blank (text_of doc) = false
    /\ batch_metadata json_dumps doc = Return metadata
    /\ r = PDict [("doc_id", PStr id); ("content", PStr (text_of doc));
                  ("embedding", vec (text_of doc)); ("metadata", metadata)].
Proof.
  unfold aligned, aligned_row, text_of.
  destruct (dict_find "doc_id" doc) as [[| | | | id | |] |]; try discriminate.
  destruct (dict_find "content" doc) as [[| | | | content | |] |]; try discriminate.
  destruct (batch_metadata json_dumps doc) as [metadata |]; [| discriminate].
  destruct (Str.blank content) eqn:Hb; [discriminate |].
  intros [= <-]. exists id, metadata. repeat split.
Qed.

Lemma aligned_has_content doc r : aligned doc r -> has_content doc = true.
Proof.
  intros H. destruct (aligned_inv doc r H) as (id & m & _ & Hc & Hb & _).
  unfold has_content, dict_has, dict_get. rewrite Hc. cbn.
  destruct (text_of doc); [discriminate | reflexivity].
Qed.

Lemma contents_of_aligned batch rows :
  Forall2 aligned batch rows ->
  contents_of batch = map PStr (map text_of batch)
  /\ non_blank (map text_of batch) = map text_of batch.
Proof.
  intros H. unfold contents_of.
  induction H as [| doc r batch rows Hdoc _ [IH1 IH2]]; [now split |].
  cbn [List.filter map non_blank]. rewrite (aligned_has_content doc r Hdoc).
  destruct (aligned_inv doc r Hdoc) as (id & m & _ & Hc & Hb & _).
  cbn [map]. rewrite IH1. fold (non_blank (map text_of batch)). rewrite IH2, Hb.
  cbn [negb]. unfold dict_get. now rewrite Hc.
Qed.

Lemma vectors_of_strings texts :
  Mem.vectors_of (map PStr texts) = Return (map vec texts).
Proof.
  induction texts as [| text rest IH]; [reflexivity |].
  cbn [map Mem.vectors_of]. now rewrite IH.
Qed.

Lemma embed_batch_healthy texts (w : World Mem.state) :
  texts <> [] ->
  non_blank texts = texts ->
  Mem.embed_failures (services w) = 0%nat ->
  _embed_batch Mem.svc (map PStr texts) w = (Return (PList (map vec texts)), w).
Proof.
  intros Hne Hnb Hup. unfold _embed_batch.
  destruct texts as [| text rest]; [congruence |].
  cbn [map]. unfold bind, lift.
  change (PStr text :: map PStr rest) with (map PStr (text :: rest)).
  rewrite valid_texts_of_strings, Hnb. cbn [map].
  change (Z.to_nat _MAX_RETRIES) with 3%nat.
  rewrite embed_batch_attempts_step.
  unfold attempt_batch. cbn [embeddings_create Mem.svc].
  unfold Mem.embeddings_create. rewrite Hup.
  change (PStr text :: map PStr rest) with (map PStr (text :: rest)).
  rewrite vectors_of_strings. cbn [fst snd]. now destruct w.
Qed.

Lemma rows_from_aligned batch rows :
  Forall2 aligned batch rows ->
  forall before,
    rows_from json_dumps (List.length before) batch
              (PList (before ++ map vec (map text_of batch)))
    = Return rows.
Proof.
  induction 1 as [| doc r batch rows Hdoc _ IH]; intros before; [reflexivity |].
  destruct (aligned_inv doc r Hdoc) as (id & m & Hid & Hc & Hb & Hm & ->).
  cbn [rows_from py_len obind map].
  rewrite (aligned_has_content _ _ Hdoc).
  assert (Hlt : (Z.of_nat (List.length before)
                 <? Z.of_nat (List.length (before ++ vec (text_of doc)
                                             :: map vec (map text_of batch)))) = true).
  { apply Z.ltb_lt. rewrite length_app. cbn [List.length]. lia. }
  rewrite Hlt. cbn [andb].
  unfold dict_item. rewrite Hid, Hc. cbn [obind py_index].
  unfold index. rewrite nth_error_app2, Nat.sub_diag by lia. cbn [nth_error obind].
  rewrite Hm. cbn [obind].
  specialize (IH (before ++ [vec (text_of doc)])%list).
  rewrite length_app, <- app_assoc in IH. cbn [List.length app] in IH.
  rewrite Nat.add_1_r in IH. rewrite IH. reflexivity.
Qed.

Lemma put_all_aligned batch rows :
  Forall2 aligned batch rows ->
  forall table, exists table', Mem.put_all rows table = Some table'.
Proof.
  induction 1 as [| doc r batch rows Hdoc _ IH]; intros table.
  - now exists table.
  - destruct (aligned_inv doc r Hdoc) as (id & m & _ & _ & _ & _ & ->).
    cbn. apply IH.
Qed.

Lemma put_all_app rows1 : forall rows2 table,
  Mem.put_all (rows1 ++ rows2) table
  = match Mem.put_all rows1 table with
    | Some table' => Mem.put_all rows2 table'
    | None => None
    end.
Proof.
  induction rows1 as [| r rows1 IH]; intros rows2 table; [reflexivity |].
  cbn [app Mem.put_all].
  destruct r as [| | | | | | fields]; try reflexivity.
  destruct (Mem.doc_id_of fields); [apply IH | reflexivity].
Qed.

Lemma upsert_batches_aligned batches : forall rowss results (w : World Mem.state),
  Forall2 (Forall2 aligned) batches rowss ->
  Forall (fun batch => (0 < List.length batch)%nat) batches ->
  healthy w ->
  exists w',
    upsert_batches Mem.svc json_dumps batches results w
    = (Return (results ++ List.concat rowss)%list, w')
    /\ Mem.put_all (List.concat rowss) (Mem.rows (services w))
       = Some (Mem.rows (services w'))
    /\ healthy w'.
Proof.
  induction batches as [| batch rest IH]; intros rowss results w Hall Hne Hw.
  - inversion Hall; subst. exists w. cbn. rewrite app_nil_r.
    split; [reflexivity | split; [reflexivity | exact Hw]].
  - inversion Hall as [| ? rows ? rowss' Hbatch Hrest]; subst.
    inversion Hne as [| ? ? Hlen Hne']; subst.
    destruct (contents_of_aligned batch rows Hbatch) as [Hcontents Hnb].
    assert (Htexts : map text_of batch <> []).
    { destruct batch; [cbn in Hlen; lia | discriminate]. }
    assert (Hrows : rows <> []).
    { destruct Hbatch; [cbn in Hlen; lia | discriminate]. }
    destruct Hw as [Hembed Hdb].
    cbn [upsert_batches]. rewrite Hcontents.
    destruct (map PStr (map text_of batch)) as [| c0 cs] eqn:Hmap.
    { destruct (map text_of batch); [congruence | discriminate]. }
    rewrite <- Hmap. unfold bind at 1.
    rewrite (embed_batch_healthy _ w Htexts Hnb Hembed).
    unfold bind at 1, lift.
    pose proof (rows_from_aligned batch rows Hbatch []) as Hr.
    cbn [List.length app] in Hr. rewrite Hr.
    destruct rows as [| r0 rs]; [congruence |].
    destruct (put_all_aligned batch (r0 :: rs) Hbatch (Mem.rows (services w)))
      as (table' & Hput).
    unfold bind at 1, call. cbn [execute Mem.svc]. unfold Mem.execute.
    rewrite Hdb. cbn [q_verb documents table]. rewrite Hput.
    cbn [error data].
    set (w1 := mkWorld (Mem.mkState table' (Mem.embed_failures (services w)) 0
                                    (Mem.similarity (services w))) (lru w) (slept w)).
    destruct (IH rowss' (results ++ r0 :: rs)%list w1 Hrest Hne') as (w' & Hrun & Hput' & Hw').
    { split; [exact Hembed | reflexivity]. }
    exists w'. split; [| split; [| exact Hw']].
    + rewrite Hrun. cbn [List.concat]. now rewrite app_assoc.
    + cbn [List.concat]. rewrite put_all_app, Hput. exact Hput'.
Qed.

Lemma Forall2_firstn_skipn {A B} (R : A -> B -> Prop) n : forall l l',
  Forall2 R l l' ->
  Forall2 R (firstn n l) (firstn n l') /\ Forall2 R (skipn n l) (skipn n l').
Proof.
  induction n as [| n IH]; intros l l' H.
  - split; [constructor | exact H].
  - destruct H as [| x y l l' Hxy H]; [split; constructor |].
    destruct (IH l l' H) as [H1 H2]. split; [now constructor | exact H2].
Qed.

Lemma slices_of_aligned size : forall bound docs rows,
  Forall2 aligned docs rows ->
  Forall2 (Forall2 aligned) (slices_of bound size docs) (slices_of bound size rows).
Proof.
  induction bound as [| bound IH]; intros docs rows H; [constructor |].
  cbn [slices_of].
  destruct H as [| doc r docs rows Hdoc H]; [constructor |].
  assert (Hall : Forall2 aligned (doc :: docs) (r :: rows)) by now constructor.
  destruct (Forall2_firstn_skipn aligned size _ _ Hall) as [H1 H2].
  constructor; [exact H1 | now apply IH].
Qed.

(** X23. On the in-memory services with both services up, a batch in
    which every document has a string id, content that is a string and
    not blank, and metadata that [json.dumps] accepts is written whole:
    [upsert_batch] returns one row per document, in order, each with the
    vector of its own content, and these rows are what the table
    receives.  The misalignment of the embeddings needs a document without
    content. *)
Theorem upsert_batch_of_full_documents docs rows (w : World Mem.state) :
  Forall2 (fun doc r => aligned_row json_dumps doc = Some r) docs rows ->
  Mem.embed_failures (services w) = 0%nat ->
  Mem.db_failures (services w) = 0%nat ->
  fst (upsert_batch Mem.svc json_dumps docs w) = Return rows
  /\ Mem.put_all rows (Mem.rows (services w))
     = Some (Mem.rows (services (snd (upsert_batch Mem.svc json_dumps docs w)))).
Proof.
  intros Hall Hembed Hdb.
  destruct docs as [| doc rest].
  - inversion Hall; subst. now split.
  - unfold upsert_batch. rewrite try_reraise.
    pose proof (Forall2_length Hall) as Hlen.
    destruct (slices_of_spec _BATCH_SIZE ltac:(unfold _BATCH_SIZE; lia)
                (List.length (doc :: rest)) (doc :: rest) (le_n _)) as [_ Hne].
    destruct (slices_of_spec _BATCH_SIZE ltac:(unfold _BATCH_SIZE; lia)
                (List.length (doc :: rest)) rows ltac:(rewrite Hlen; apply le_n))
      as [Hcat _].
    destruct (upsert_batches_aligned (slices _BATCH_SIZE (doc :: rest))
                (slices_of (List.length (doc :: rest)) _BATCH_SIZE rows) [] w)
      as (w' & Hrun & Hput & _).
    + apply slices_of_aligned. exact Hall.
    + eapply Forall_impl; [| exact Hne]. cbn beta. intros batch Hb. lia.
    + now split.
    + rewrite Hrun. cbn [fst snd app]. rewrite Hcat in *. now split.
Qed.

End FullBatch.

(** ** Instances of the further statements *)

Lemma embedding_cache_hit_witness :
  let w := Mem.world_failing [] 0 0 in
  let w1 := mkWorld (services w) [("hello", hello_vector)] [] in
  _embed_single Mem.svc "hello" w = (Return hello_vector, w1)
  /\ _embed_single Mem.svc "hello" w1 = (Return hello_vector, w1).
Proof.
  intros w w1.
  assert (H : _embed_single Mem.svc "hello" w = (Return hello_vector, w1))
    by (vm_compute; reflexivity).
  exact (conj H (embedding_cache_hit Mem.svc "hello" w hello_vector w1 H)).
Defined.

Lemma embedding_cache_bounded_witness :
  let w := Mem.world [] in
  (List.length (lru w) <= lru_maxsize)%nat
  /\ (List.length (lru (snd (_embed_single Mem.svc "hello" w))) <= lru_maxsize)%nat.
Proof.
  intros w.
  assert (H : (List.length (lru w) <= lru_maxsize)%nat) by (cbn; lia).
  exact (conj H (embedding_cache_bounded Mem.svc "hello" w H)).
Defined.



Lemma upsert_batch_without_content_witness :
  Forall (fun doc => has_content doc = false) without_content
  /\ upsert_batch Mem.svc Json.dumps without_content (Mem.world pets)
     = (Return [], Mem.world pets).
Proof.
  assert (H : Forall (fun doc => has_content doc = false) without_content)
    by (repeat constructor).
  exact (conj H (upsert_batch_without_content Mem.svc Json.dumps without_content
                   (Mem.world pets) H)).
Defined.

Lemma client_side_filter_result_witness :
  let w := Mem.world pets in
  Forall (fun d => readable d = true) (map PDict pets)
  /\ client_side_filter Mem.svc "Which DOG?" 8 w = (Return [PDict (doc "2" "my dog")], w).
Proof.
  intros w.
  assert (H : Forall (fun d => readable d = true) (map PDict pets))
    by (repeat constructor).
  exact (conj H (client_side_filter_result Mem.svc "Which DOG?" 8 w
                   (mkResponse (Some (map PDict pets)) None None) (services w)
                   eq_refl H)).
Defined.


Lemma delete_then_absent_witness :
  let w := Mem.world pets in
  let after := snd (delete Mem.svc "1" w) in
  fst (delete Mem.svc "1" w) = Return true
  /\ Mem.rows (services after) = [doc "2" "my dog"]
  /\ fst (get_document Mem.svc Json.loads "1" after) = Return PNone
  /\ fst (delete Mem.svc "1" after) = Return false.
Proof.
  intros w.
  exact (delete_then_absent Json.loads "1" w eq_refl).
Defined.




Lemma supabase_upsert_reports_witness :
  let w := Mem.world pets in
  supabase_upsert Mem.svc Json.dumps message_of "3" "   " (PDict []) w
  = (Return (status "error" [("message", PStr "Document content cannot be empty")]), w)
  /\ supabase_upsert Mem.svc Json.dumps message_of EmptyString "birds" (PDict []) w
     = (Return (status "error" [("message", PStr "Document ID is required")]), w)
  /\ supabase_upsert Mem.svc_ascii Json.dumps message_of cafe "   " (PDict []) w
     = (Return (status "error" [("message", PStr "UnicodeEncodeError")]), w).
Proof.
  intros w.
  destruct (supabase_upsert_reports Mem.svc Json.dumps message_of "3" "   " (PDict []) w)
    as (_ & Hblank & _).
  destruct (supabase_upsert_reports Mem.svc Json.dumps message_of EmptyString "birds"
              (PDict []) w) as (_ & _ & Hid & _).
  destruct (supabase_upsert_reports Mem.svc_ascii Json.dumps message_of cafe "   "
              (PDict []) w) as (_ & _ & _ & Hraise).
  exact (conj (Hblank eq_refl eq_refl) (conj (Hid eq_refl eq_refl eq_refl) (Hraise eq_refl))).
Defined.

Lemma supabase_upsert_batch_without_content_witness :
  Forall (fun doc => has_content doc = false) without_content
  /\ supabase_upsert_batch Mem.svc Json.dumps message_of without_content (Mem.world pets)
     = (Return (status "success"
                  [("message", PStr "Successfully processed 0 documents");
                   ("count", PInt 0)]), Mem.world pets).
Proof.
  assert (H : Forall (fun doc => has_content doc = false) without_content)
    by (repeat constructor).
  exact (conj H (supabase_upsert_batch_without_content Mem.svc Json.dumps message_of
                   without_content (Mem.world pets) H)).
Defined.

(** The vector store is down and the record is flagged for it: the record
    is filed all the same. *)
Lemma create_always_files_witness :
  let w := Mem.world [] in
  let r := mkRecord "00000000-0000-4000-8000-000000000001" "personal_app" "u1" "s1"
                    "AI is advancing rapidly in 2025." "2025-05-01T12:00:00"
                    (PDict [("store_in_vector_db", PBool true)]) in
  let run := memory_create no_store Json.dumps uuid_1 noon note two_notes w in
  is_dict (rec_metadata note) = true
  /\ memory_list "personal_app" "u1" "s1" (snd (fst run))
     = (memory_list "personal_app" "u1" "s1" two_notes ++ [r])%list
  /\ fst (fst run) = Return r.
Proof.
  intros w r run.
  destruct (create_always_files no_store Json.dumps uuid_1 noon note two_notes w)
    as (Hlist & _ & Hret & _).
  exact (conj eq_refl (conj Hlist (Hret (or_intror eq_refl)))).
Defined.

Lemma memory_delete_removes_witness :
  let ss' := snd (memory_delete "personal_app" "u1" "s1" "n1" two_notes) in
  session_key "personal_app" "u1" "s1" <> session_key "personal_app" "u2" "s1"
  /\ memory_get "personal_app" "u1" "s1" "n1" ss' = None
  /\ memory_list "personal_app" "u1" "s1" ss'
     = [mkRecord "n2" "personal_app" "u1" "s1" "second" "t2" PNone]
  /\ memory_list "personal_app" "u2" "s1" ss'
     = memory_list "personal_app" "u2" "s1" two_notes.
Proof.
  intros ss'.
  assert (Hne : session_key "personal_app" "u1" "s1"
                <> session_key "personal_app" "u2" "s1") by discriminate.
  destruct (memory_delete_removes "personal_app" "u1" "s1" "n1" two_notes)
    as (_ & Hget & Hlist & _ & Hother).
  exact (conj Hne (conj Hget (conj Hlist (proj1 (Hother _ _ _ Hne))))).
Defined.

Lemma session_keys_witness :
  session_key "team:a" "u1" "s1" = session_key "team" "a:u1" "s1"
  /\ memory_list "team:a" "u1" "s1" two_notes = memory_list "team" "a:u1" "s1" two_notes
  /\ colon_free "team" = true
  /\ ("team" = "team" /\ "u1" = "u1" /\ "s1" = "s1").
Proof.
  destruct (session_keys "team" "u1" "s1" "team" "u1" "s1" "a" two_notes)
    as (Hkey & Hlist & H).
  exact (conj Hkey (conj Hlist (conj eq_refl
           (H eq_refl eq_refl eq_refl eq_refl eq_refl)))).
Defined.

Lemma upsert_batch_of_full_documents_witness :
  let docs := [doc "b" "x"; doc "c" "yy"] in
  let rows := [row "b" "x" (Mem.vector_of "x"); row "c" "yy" (Mem.vector_of "yy")] in
  Forall2 (fun d r => aligned_row Json.dumps d = Some r) docs rows
  /\ fst (upsert_batch Mem.svc Json.dumps docs (Mem.world pets)) = Return rows.
Proof.
  intros docs rows.
  assert (H : Forall2 (fun d r => aligned_row Json.dumps d = Some r) docs rows)
    by (repeat constructor).
  exact (conj H (proj1 (upsert_batch_of_full_documents Json.dumps docs rows
                          (Mem.world pets) H eq_refl eq_refl))).
Defined.

(** ** Reading a document, evicting from the cache, and storing a memory *)

Section Further.

Variable json_dumps : pyval -> outcome string.
Variable json_loads : string -> option pyval.

Lemma dict_find_set_same key v d : dict_find key (dict_set key v d) = Some v.
Proof.
  induction d as [| [k x] d IH]; cbn.
  - now rewrite String.eqb_refl.
  - destruct (k =? key)%string eqn:E; cbn; now rewrite E.
Qed.

(** X24. When the database answers rows, [get_document] returns the
    first of them with every field as the database gave it, except that
    metadata which is JSON text is replaced by what [json.loads] reads
    from it; metadata that is text but not JSON is returned as the text
    it was, without error. *)
Theorem get_document_decodes {Remote} (svc : Services Remote)
  doc_id (w w' : World Remote) response fields rest :
  call (execute svc (get_query doc_id)) w = (Return response, w') ->
  error response = None ->
  rows_of response = PDict fields :: rest ->
  exists fields',
    get_document svc json_loads doc_id w = (Return (PDict fields'), w')
    /\ (forall key, ("metadata" =? key)%string = false ->
                    dict_find key fields' = dict_find key fields)
    /\ dict_get "metadata" PNone fields'
       = match dict_get "metadata" PNone fields with
         | PStr s => match json_loads s with Some parsed => parsed | None => PStr s end
         | other => other
         end.
Proof.
  intros Hcall Herr Hrows.
  rewrite (get_document_found json_loads svc doc_id w w' response fields rest
             Hcall Herr Hrows).
  unfold parse_metadata. cbn [py_get obind].
  destruct (dict_get "metadata" PNone fields) as [| b | z | q | s | items | fs] eqn:Hm;
    try (exists fields; rewrite Hm; now repeat split).
  destruct (json_loads s) as [parsed |].
  - exists (dict_set "metadata" parsed fields). split; [reflexivity |]. split.
    + intros key Hk. now apply dict_find_set_other.
    + unfold dict_get. now rewrite dict_find_set_same.
  - exists fields. rewrite Hm. now repeat split.
Qed.

(** X25. When the cache is full and the text is not in it, a successful
    embedding takes the place of the least recent entry: the new entry
    comes first and the last one is dropped. *)
Theorem cache_evicts_least_recent {Remote} (svc : Services Remote)
  text (w : World Remote) v w' :
  cache_find text (lru w) = None ->
  List.length (lru w) = lru_maxsize ->
  embed_single_uncached svc text w = (Return v, w') ->
  lru (snd (_embed_single svc text w)) = (text, v) :: removelast (lru w).
Proof.
  intros Hmiss Hfull Hrun.
  pose proof (embed_single_uncached_lru svc text w) as Hlru.
  unfold _embed_single, lru_cache. rewrite Hmiss, Hrun.
  rewrite Hrun in Hlru. cbn [snd lru] in *. rewrite Hlru.
  unfold lru_maxsize in *. rewrite firstn_cons. f_equal.
  rewrite removelast_firstn_len, Hfull. reflexivity.
Qed.

Lemma dict_find_app_last key k v (l : dict) :
  dict_find key (l ++ [(k, v)])%list
  = match dict_find key l with
    | Some x => Some x
    | None => if (k =? key)%string then Some v else None
    end.
Proof.
  induction l as [| [k' x'] l IH]; cbn; [reflexivity |].
  destruct (k' =? key)%string; [reflexivity | exact IH].
Qed.

Lemma dict_merge_find key extra : forall base,
  dict_find key (dict_merge base extra)
  = match dict_find key (rev extra) with
    | Some v => Some v
    | None => dict_find key base
    end.
Proof.
  unfold dict_merge.
  induction extra as [| [k v] extra IH]; intros base; [reflexivity |].
  cbn [fold_left fst snd rev]. rewrite IH, dict_find_app_last.
  destruct (dict_find key (rev extra)); [reflexivity |].
  destruct (k =? key)%string eqn:E.
  - apply String.eqb_eq in E. subst k. apply dict_find_set_same.
  - now apply dict_find_set_other.
Qed.

Lemma dict_find_rev_none key (d : dict) :
  dict_find key (rev d) = None -> dict_find key d = None.
Proof.
  induction d as [| [k v] d IH]; [reflexivity |].
  cbn [rev]. rewrite dict_find_app_last.
  destruct (dict_find key (rev d)); [discriminate |].
  cbn [dict_find]. destruct (k =? key)%string; [discriminate |].
  intros _. now apply IH.
Qed.

(** X26. In the metadata [create] sends to the vector store, the
    metadata of the record wins: a key the record's metadata binds
    (be it [app_id], [user_id], [session_id], [timestamp] or [type])
    has the value bound last there, and only the keys it does not bind
    carry the ids and the time stamp of the record, with [type]
    defaulting to "memory". *)
Theorem vector_metadata_override record fields key :
  exists merged,
    vector_metadata record fields = PDict merged
    /\ dict_find key merged
       = match dict_find key (rev fields) with
         | Some v => Some v
         | None =>
             dict_find key
               [("app_id", PStr (rec_app_id record));
                ("user_id", PStr (rec_user_id record));
                ("session_id", PStr (rec_session_id record));
                ("timestamp", PStr (rec_timestamp record));
                ("type", PStr "memory")]
         end.
Proof.
  unfold vector_metadata. eexists. split; [reflexivity |].
  rewrite dict_merge_find.
  destruct (dict_find key (rev fields)) as [v |] eqn:Hlast; [reflexivity |].
  apply dict_find_rev_none in Hlast.
  cbn [dict_find].
  destruct ("app_id" =? key)%string; [reflexivity |].
  destruct ("user_id" =? key)%string; [reflexivity |].
  destruct ("session_id" =? key)%string; [reflexivity |].
  destruct ("timestamp" =? key)%string; [reflexivity |].
  destruct ("type" =? key)%string eqn:E; [| reflexivity].
  apply String.eqb_eq in E. subst key.
  unfold dict_get. now rewrite Hlast.
Qed.

Lemma embed_single_mem_up text (w : World Mem.state) :
  Str.blank text = false ->
  Mem.embed_failures (services w) = 0%nat ->
  exists v w1,
    _embed_single Mem.svc text w = (Return v, w1) /\ services w1 = services w.
Proof.
  intros Hb Hup. unfold _embed_single, lru_cache.
  destruct (cache_find text (lru w)) as [v |]; [now eexists _, _ |].
  unfold embed_single_uncached. rewrite Hb.
  change (Z.to_nat _MAX_RETRIES) with 3%nat.
  rewrite embed_single_attempts_step.
  unfold attempt_single. cbn [embeddings_create Mem.svc].
  unfold Mem.embeddings_create. rewrite Hup. cbn.
  now eexists _, _.
Qed.

(** On the in-memory services with both up, the [upsert] of a document
    returns, and the document can be read back. *)
Lemma mem_upsert_then_get doc_id content fields s (w : World Mem.state) :
  Str.blank content = false ->
  Str.is_empty doc_id = false ->
  json_dumps (PDict fields) = Return s ->
  json_loads s = Some (PDict fields) ->
  Mem.embed_failures (services w) = 0%nat ->
  Mem.db_failures (services w) = 0%nat ->
  exists stored w',
    upsert Mem.svc json_dumps doc_id content (PDict fields) w = (Return stored, w')
    /\ exists document w'',
        get_document Mem.svc json_loads doc_id w' = (Return (PDict document), w'')
        /\ dict_find "content" document = Some (PStr content)
        /\ dict_find "metadata" document = Some (PDict fields).
Proof.
  intros Hb Hid Hd Hl Hembed Hdb.
  destruct (embed_single_mem_up content w Hb Hembed) as (v & w1 & Hv & Hs).
  assert (Hu : exists stored w',
             upsert Mem.svc json_dumps doc_id content (PDict fields) w
             = (Return stored, w')).
  { unfold upsert. rewrite try_reraise, Hb, Hid.
    rewrite (bind_returns _ _ _ _ _ Hv).
    unfold lift, bind at 1. cbn [dump_if_dict is_dict]. rewrite Hd. cbn [obind].
    unfold bind, call. cbn [execute Mem.svc]. unfold Mem.execute at 1.
    rewrite Hs, Hdb. cbn -[Mem.put]. now eexists _, _. }
  destruct Hu as (stored & w' & Hu). exists stored, w'. split; [exact Hu |].
  destruct (upsert_returns_inv json_dumps Mem.svc _ _ _ _ _ _ Hu)
    as (embedding & w2 & stored_metadata & response & rest & _ & Hdump & Hwrite & _ & _).
  cbn [dump_if_dict is_dict] in Hdump. rewrite Hd in Hdump. cbn in Hdump.
  injection Hdump as <-.
  destruct (mem_reads_its_write _ _ _ _ _ _ _ Hwrite) as (others & w'' & Hread).
  rewrite (get_document_found json_loads Mem.svc doc_id w' w'' _ _ others Hread
             eq_refl eq_refl).
  cbn. rewrite Hl.
  eexists _, _. repeat split.
Qed.

(** The standard output of the in-memory services prints every text. *)
Lemma mem_prints text (w : World Mem.state) :
  print Mem.svc text w = (Return tt, w).
Proof.
  apply print_returns. unfold printable.
  apply forallb_forall. intros c _. apply orb_true_r.
Qed.

(** X27. On the in-memory services with both up, [create] of a record
    that has an id, a time stamp and text that is not blank, and whose
    metadata is flagged [store_in_vector_db], writes the record to the
    vector store: [get_document] with the id of the record returns its
    text as content and, as metadata, the dictionary [create] built. *)
Theorem memory_record_reaches_store
  (uuid4 now_isoformat : Mem.state -> string * Mem.state)
  record fields s ss (w : World Mem.state) :
  Str.is_empty (rec_id record) = false ->
  Str.is_empty (rec_timestamp record) = false ->
  Str.blank (rec_text record) = false ->
  rec_metadata record = PDict fields ->
  truthy (dict_get "store_in_vector_db" (PBool false) fields) = true ->
  json_dumps (vector_metadata record fields) = Return s ->
  json_loads s = Some (vector_metadata record fields) ->
  Mem.embed_failures (services w) = 0%nat ->
  Mem.db_failures (services w) = 0%nat ->
  let run := memory_create Mem.svc json_dumps uuid4 now_isoformat record ss w in
  fst (fst run) = Return record
  /\ exists document w'',
      get_document Mem.svc json_loads (rec_id record) (snd run)
      = (Return (PDict document), w'')
      /\ dict_find "content" document = Some (PStr (rec_text record))
      /\ dict_find "metadata" document = Some (vector_metadata record fields).
Proof.
  intros Hid Hts Hb Hmeta Hflag Hd Hl Hembed Hdb run. subst run.
  destruct record as [id app user session text timestamp metadata].
  cbn [rec_id rec_timestamp rec_text rec_metadata rec_app_id rec_user_id
       rec_session_id] in *.
  subst metadata.
  assert (Htruthy : truthy (PDict fields) = true).
  { destruct fields; [cbn in Hflag; discriminate | reflexivity]. }
  unfold memory_create.
  cbn [rec_id rec_timestamp rec_text rec_metadata rec_app_id rec_user_id
       rec_session_id].
  rewrite Hid, Hts.
  cbn [rec_id rec_timestamp rec_text rec_metadata rec_app_id rec_user_id
       rec_session_id].
  rewrite Htruthy, Hflag.
  unfold vector_metadata in *.
  cbn [rec_id rec_timestamp rec_text rec_metadata rec_app_id rec_user_id
       rec_session_id] in *.
  destruct (mem_upsert_then_get id text _ s w Hb Hid Hd Hl Hembed Hdb)
    as (stored & w' & Hu & document & w'' & Hg & Hc & Hm).
  unfold try_except, bind, ret. rewrite Hu, mem_prints. cbn [fst snd].
  split; [reflexivity |]. now exists document, w''.
Qed.

End Further.

(** ** Instances, continued *)

Lemma get_document_decodes_witness :
  let w := Mem.world [scribbled] in
  call (execute Mem.svc (get_query "7")) w
  = (Return (mkResponse (Some [PDict scribbled]) None None), w)
  /\ exists fields',
      get_document Mem.svc Json.loads "7" w = (Return (PDict fields'), w)
      /\ (forall key, ("metadata" =? key)%string = false ->
                      dict_find key fields' = dict_find key scribbled)
      /\ dict_get "metadata" PNone fields' = PStr "to do: parse".
Proof.
  intros w.
  assert (Hcall : call (execute Mem.svc (get_query "7")) w
                  = (Return (mkResponse (Some [PDict scribbled]) None None), w))
    by reflexivity.
  exact (conj Hcall
           (get_document_decodes Json.loads Mem.svc "7" w w _ scribbled []
              Hcall eq_refl eq_refl)).
Defined.

Lemma cache_evicts_least_recent_witness :
  let w := mkWorld (Mem.mkState [] 0 0 Mem.no_rows) full_cache [] in
  cache_find "hello" (lru w) = None
  /\ List.length (lru w) = lru_maxsize
  /\ lru (snd (_embed_single Mem.svc "hello" w))
     = ("hello", hello_vector) :: removelast full_cache.
Proof.
  intros w.
  assert (Hmiss : cache_find "hello" (lru w) = None) by reflexivity.
  assert (Hfull : List.length (lru w) = lru_maxsize) by reflexivity.
  assert (Hrun : embed_single_uncached Mem.svc "hello" w = (Return hello_vector, w))
    by reflexivity.
  exact (conj Hmiss (conj Hfull
           (cache_evicts_least_recent Mem.svc "hello" w hello_vector w Hmiss Hfull Hrun))).
Defined.

Lemma memory_record_reaches_store_witness :
  let run := memory_create Mem.svc Json.dumps uuid_1 noon flagged [] (Mem.world pets) in
  Json.dumps (vector_metadata flagged flagged_fields) = Return flagged_json
  /\ Json.loads flagged_json = Some (vector_metadata flagged flagged_fields)
  /\ fst (fst run) = Return flagged
  /\ exists document w'',
      get_document Mem.svc Json.loads "n7" (snd run) = (Return (PDict document), w'')
      /\ dict_find "content" document = Some (PStr "AI is advancing rapidly in 2025.")
      /\ dict_find "metadata" document = Some flagged_metadata.
Proof.
  intros run.
  assert (Hd : Json.dumps (vector_metadata flagged flagged_fields) = Return flagged_json)
    by (vm_compute; reflexivity).
  assert (Hl : Json.loads flagged_json = Some (vector_metadata flagged flagged_fields))
    by (vm_compute; reflexivity).
  exact (conj Hd (conj Hl
           (memory_record_reaches_store Json.dumps Json.loads uuid_1 noon flagged
              flagged_fields flagged_json [] (Mem.world pets)
              eq_refl eq_refl eq_refl eq_refl eq_refl Hd Hl eq_refl eq_refl))).
Defined.

(** ** Writing and reading back when the services are up *)

(** X28. On the in-memory services with both up, the [upsert] of a
    document with an id, content that is not blank and metadata that
    [json.dumps] serialises and [json.loads] reads back does return a
    row, and [get_document] then returns the content and the metadata of
    the document. *)
Theorem upsert_succeeds_when_up
  (json_dumps : pyval -> outcome string) (json_loads : string -> option pyval)
  doc_id content fields s (w : World Mem.state) :
  Str.blank content = false ->
  Str.is_empty doc_id = false ->
  json_dumps (PDict fields) = Return s ->
  json_loads s = Some (PDict fields) ->
  Mem.embed_failures (services w) = 0%nat ->
  Mem.db_failures (services w) = 0%nat ->
  exists stored w',
    upsert Mem.svc json_dumps doc_id content (PDict fields) w = (Return stored, w')
    /\ exists document w'',
        get_document Mem.svc json_loads doc_id w' = (Return (PDict document), w'')
        /\ dict_find "content" document = Some (PStr content)
        /\ dict_find "metadata" document = Some (PDict fields).
Proof. apply mem_upsert_then_get. Qed.

Lemma upsert_succeeds_when_up_witness :
  Json.dumps handbook = Return handbook_json
  /\ Json.loads handbook_json = Some handbook
  /\ exists stored w',
      upsert Mem.svc Json.dumps "policy-1" "Remote work policy" handbook (Mem.world pets)
      = (Return stored, w')
      /\ exists document w'',
          get_document Mem.svc Json.loads "policy-1" w' = (Return (PDict document), w'')
          /\ dict_find "content" document = Some (PStr "Remote work policy")
          /\ dict_find "metadata" document = Some handbook.
Proof.
  assert (Hd : Json.dumps handbook = Return handbook_json) by (vm_compute; reflexivity).
  assert (Hl : Json.loads handbook_json = Some handbook) by (vm_compute; reflexivity).
  exact (conj Hd (conj Hl
           (upsert_succeeds_when_up Json.dumps Json.loads "policy-1" "Remote work policy"
              _ handbook_json (Mem.world pets) eq_refl eq_refl Hd Hl eq_refl eq_refl))).
Defined.

(** ** What [search] can raise *)

(** X29. [search] returns a list, for every [top_k] and every behaviour
    of the embedding endpoint and of the database, whenever the standard
    output can print the query.  The one exception it lets through is the
    [UnicodeEncodeError] of the [print] that opens [search_fallback]
    (the diagnostics of exceptions and of the services being taken to
    print, see [print]). *)
Theorem search_raises_only_from_print {Remote} (svc : Services Remote)
  (json_loads : string -> option pyval) query top_k (w : World Remote) :
  (printable svc query = true ->
   exists rows w', search svc json_loads query top_k w = (Return rows, w'))
  /\ (forall e w',
         search svc json_loads query top_k w = (Raise e, w') ->
         e = UnicodeEncodeError /\ printable svc query = false).
Proof.
  split; [apply search_returns |].
  intros e w' Hs.
  destruct (printable svc query) eqn:Hp.
  - destruct (search_returns svc json_loads query top_k w Hp) as (rows & w1 & Hr).
    congruence.
  - split; [| reflexivity].
    unfold search, try_except in Hs.
    match type of Hs with
    | context [match ?body with _ => _ end] =>
        destruct body as [[rows | e0] w1]; [discriminate |]
    end.
    rewrite search_fallback_unprintable in Hs by exact Hp.
    congruence.
Qed.

Lemma search_raises_only_from_print_witness :
  let w := Mem.world_failing pets 3 1 in
  printable Mem.svc "my dog" = true
  /\ (exists rows w', search Mem.svc Json.loads "my dog" 8 w = (Return rows, w'))
  /\ search Mem.svc_ascii Json.loads cafe 8 w
     = (Raise UnicodeEncodeError, mkWorld (Mem.mkState pets 0 1 Mem.no_rows) [] [2; 2])
  /\ printable Mem.svc_ascii cafe = false.
Proof.
  intros w.
  assert (Hp : printable Mem.svc "my dog" = true) by reflexivity.
  assert (Hs : search Mem.svc_ascii Json.loads cafe 8 w
               = (Raise UnicodeEncodeError,
                  mkWorld (Mem.mkState pets 0 1 Mem.no_rows) [] [2; 2]))
    by (vm_compute; reflexivity).
  destruct (search_raises_only_from_print Mem.svc Json.loads "my dog" 8 w)
    as [Hreturn _].
  destruct (search_raises_only_from_print Mem.svc_ascii Json.loads cafe 8 w)
    as [_ Hraise].
  exact (conj Hp (conj (Hreturn Hp) (conj Hs (proj2 (Hraise _ _ Hs))))).
Defined.
